(** * Self-hosted AI assistant: provider selection and the two HTTP adapters

    A shallow embedding of
      - [packages/cli/src/services/ai.service.ts]            (class [AiService]),
      - [packages/cli/src/services/ai-self-hosted.service.ts] (classes
        [OpenRouterClient] and [OpenAIClient], interface [AiSelfHostedClient]),
      - [packages/@n8n/config/src/configs/ai-assistant.config.ts].

    JavaScript values that travel as JSON are modelled by the inductive type
    [value]; asynchronous methods become programs of a small free monad
    [Prog] whose only effect is [fetch]; the mutable fields of the service
    are threaded explicitly. *)

From Stdlib Require Import String Ascii List Bool NArith ZArith Lia.
From Stdlib Require Import DecimalString.
Import ListNotations.
Set Warnings "-register-all".
Local Open Scope list_scope.
Local Open Scope string_scope.

(* ===================================================================== *)
(** ** JavaScript values carried by JSON *)
(* ===================================================================== *)

(** JavaScript numbers are IEEE doubles.  The code under study never computes
    with them: it only tests them for truthiness and prints them through
    [JSON.stringify].  Both operations are taken from an interface, so every
    result below holds for any representation of numbers. *)
Class JsNumber (number : Type) : Type := {
  number_truthy : number -> bool;     (* false for 0, -0 and NaN *)
  number_to_json : number -> string   (* what JSON.stringify prints *)
}.

(** Integers as one concrete representation, used to run the model. *)
#[export] Instance JsNumber_Z : JsNumber Z := {
  number_truthy z := negb (Z.eqb z 0);
  number_to_json z :=
    match z with
    | Z0 => "0"
    | Zpos p => NilZero.string_of_uint (Pos.to_uint p)
    | Zneg p => "-" ++ NilZero.string_of_uint (Pos.to_uint p)
    end
}.

(** A parsed JSON document.  Objects keep their properties in enumeration
    order, which is the order [JSON.stringify] prints them in. *)
Inductive value {number : Type} : Type :=
| VNull
| VBool (b : bool)
| VNum (n : number)
| VStr (s : string)
| VArr (elems : list value)
| VObj (props : list (string * value)).
Arguments value : clear implicits.

(** The result of a property read or of an expression that may be
    [undefined]: [None] stands for [undefined]. *)
Definition jsval (number : Type) : Type := option (value number).

Section Values.
Context {number : Type} `{JsNumber number}.

(** ToBoolean. *)
Definition truthy (v : value number) : bool :=
  match v with
  | VNull => false
  | VBool b => b
  | VNum n => number_truthy n
  | VStr s => negb (String.eqb s EmptyString)
  | VArr _ => true
  | VObj _ => true
  end.

Definition truthy_opt (v : jsval number) : bool :=
  match v with
  | None => false
  | Some v => truthy v
  end.

(** [a || b] on possibly undefined operands. *)
Definition js_or (a b : jsval number) : jsval number :=
  if truthy_opt a then a else b.

(** [a || b] when [b] is a defined value. *)
Definition js_or_else (a : jsval number) (b : value number) : value number :=
  match a with
  | Some v => if truthy v then v else b
  | None => b
  end.

(** [typeof v === 'object'] ([typeof null] is ['object'] too). *)
Definition typeof_object (v : value number) : bool :=
  match v with
  | VNull | VArr _ | VObj _ => true
  | VBool _ | VNum _ | VStr _ => false
  end.

Fixpoint assoc (key : string) (props : list (string * value number))
  : jsval number :=
  match props with
  | [] => None
  | (k, v) :: rest => if String.eqb k key then Some v else assoc key rest
  end.

(** [v.name] for a non-nullish [v] and a property name that is neither an
    index, nor [length], nor the name of a prototype method (the names read
    by the code are [choices], [message], [content] and [question]).  Only
    ordinary objects can own such a property. *)
Definition get_field (v : value number) (name : string) : jsval number :=
  match v with
  | VObj props => assoc name props
  | _ => None
  end.

(** [v[0]] for a non-nullish [v]. *)
Definition get_index0 (v : value number) : jsval number :=
  match v with
  | VArr elems => hd_error elems
  | VObj props => assoc "0" props
  | VStr (String c _) => Some (VStr (String c EmptyString))
  | _ => None
  end.

(** *** JSON.stringify *)

Definition hex_digit (n : N) : ascii :=
  match n with
  | 0%N => "0" | 1%N => "1" | 2%N => "2" | 3%N => "3"
  | 4%N => "4" | 5%N => "5" | 6%N => "6" | 7%N => "7"
  | 8%N => "8" | 9%N => "9" | 10%N => "a" | 11%N => "b"
  | 12%N => "c" | 13%N => "d" | 14%N => "e" | _ => "f"
  end%char.

Definition dquote : string := String (ascii_of_N 34) EmptyString.
Definition backslash : string := String (ascii_of_N 92) EmptyString.

(** QuoteJSONString, one code unit at a time. *)
Definition escape_char (c : ascii) : string :=
  let n := N_of_ascii c in
  if N.eqb n 34 then backslash ++ dquote
  else if N.eqb n 92 then backslash ++ backslash
  else if N.eqb n 8 then backslash ++ "b"
  else if N.eqb n 12 then backslash ++ "f"
  else if N.eqb n 10 then backslash ++ "n"
  else if N.eqb n 13 then backslash ++ "r"
  else if N.eqb n 9 then backslash ++ "t"
  else if N.ltb n 32 then
    backslash ++ "u00" ++ String (hex_digit (n / 16))
                 (String (hex_digit (n mod 16)) EmptyString)
  else String c EmptyString.

Fixpoint escape (s : string) : string :=
  match s with
  | EmptyString => EmptyString
  | String c rest => escape_char c ++ escape rest
  end.

Definition quote (s : string) : string := dquote ++ escape s ++ dquote.

Fixpoint join (sep : string) (parts : list string) : string :=
  match parts with
  | [] => EmptyString
  | [p] => p
  | p :: rest => p ++ sep ++ join sep rest
  end.

Fixpoint JSON_stringify (v : value number) : string :=
  match v with
  | VNull => "null"
  | VBool true => "true"
  | VBool false => "false"
  | VNum n => number_to_json n
  | VStr s => quote s
  | VArr elems =>
      "[" ++ join "," (map JSON_stringify elems) ++ "]"
  | VObj props =>
      "{" ++ join ","
               (map (fun kv => quote (fst kv) ++ ":" ++ JSON_stringify (snd kv))
                    props)
          ++ "}"
  end.

End Values.

(* ===================================================================== *)
(** ** Exceptions, HTTP and asynchronous programs *)
(* ===================================================================== *)

(** What a rejected promise carries. *)
Inductive exn : Type :=
| Error (message : string)            (* [new Error(message)] *)
| TypeError (message : string)        (* raised by the language itself *)
| AssertionError (message : string)   (* raised by [assert] *)
| Rejection (reason : string).        (* failure of an external collaborator *)

(** Template-literal conversion of an integer such as [response.status]. *)
Definition string_of_N (n : N) : string := NilZero.string_of_uint (N.to_uint n).

(** The second argument of [fetch] together with the URL. *)
Record Request : Type := {
  url : string;
  method : string;
  headers : list (string * string);
  body : string
}.

(** A [ReadableStream]: the content it will deliver. *)
Definition ReadableStream : Type := string.

(** The [Response] object [fetch] resolves to.  [resp_json] is what awaiting
    [response.json()] gives: the parsed document, or a rejection when the
    body is not JSON. *)
Record Response {number : Type} : Type := {
  status : N;
  statusText : string;
  resp_body : option ReadableStream;
  resp_json : exn + value number
}.
Arguments Response : clear implicits.

(** [response.ok], as the Fetch standard defines it: the status is in the
    range 200 to 299. *)
Definition ok {number : Type} (r : Response number) : bool :=
  N.leb 200 (status r) && N.leb (status r) 299.

(** Asynchronous code whose only effect is [fetch].  A program returns,
    throws, or sends a request and continues with the response. *)
Inductive Prog {number : Type} (A : Type) : Type :=
| Ret (a : A)
| Throw (e : exn)
| Fetch (req : Request) (k : Response number -> Prog A).
Arguments Prog : clear implicits.
Arguments Ret {number A} a.
Arguments Throw {number A} e.
Arguments Fetch {number A} req k.

Section Programs.
Context {number : Type}.

Fixpoint bind {A B : Type} (p : Prog number A) (f : A -> Prog number B)
  : Prog number B :=
  match p with
  | Ret a => f a
  | Throw e => Throw e
  | Fetch req k => Fetch req (fun r => bind (k r) f)
  end.

Definition fmap {A B : Type} (f : A -> B) (p : Prog number A) : Prog number B :=
  bind p (fun a => Ret (f a)).

(** The network answers each request knowing everything sent so far (the
    last element is the request being answered); [fetch] rejects when the
    network fails. *)
Definition Network : Type := list Request -> exn + Response number.

(** The outcome of a call: the requests it sent, in order, and how the
    promise settled. *)
Definition Outcome (A : Type) : Type := (list Request * (exn + A))%type.

Fixpoint run_from {A : Type} (net : Network) (sent : list Request)
                  (p : Prog number A) : Outcome A :=
  match p with
  | Ret a => (sent, inr a)
  | Throw e => (sent, inl e)
  | Fetch req k =>
      let sent' := (sent ++ [req])%list in
      match net sent' with
      | inl e => (sent', inl e)
      | inr resp => run_from net sent' (k resp)
      end
  end.

Definition run {A : Type} (net : Network) (p : Prog number A) : Outcome A :=
  run_from net [] p.

Definition requests {A : Type} (o : Outcome A) : list Request := fst o.
Definition settled {A : Type} (o : Outcome A) : exn + A := snd o.

End Programs.

Notation "x <- p ;; q" := (bind p (fun x => q))
  (at level 61, p at next level, right associativity).

(** [sub] occurs in [s]. *)
Definition contains (s sub : string) : Prop :=
  exists pre post : string, s = pre ++ sub ++ post.

(** [assert(x, message)] on an optional reference. *)
Definition assert {number A : Type} (x : option A) (message : string)
  : Prog number A :=
  match x with
  | Some a => Ret a
  | None => Throw (AssertionError message)
  end.

(* ===================================================================== *)
(** ** Request and response shapes ([@n8n/api-types], [n8n-workflow]) *)
(* ===================================================================== *)

(** [IUser]; only [id] is ever read. *)
Record IUser : Type := {
  id : string;
  email : string;
  firstName : string;
  lastName : string
}.

(** The object literal [{ id: user.id }]. *)
Record UserRef : Type := { ref_id : string }.

(** [AiChatRequestDto]: [payload] is any object; the code also guards
    against a missing or non-object one. *)
Record AiChatRequestDto {number : Type} : Type := {
  chat_payload : jsval number;
  chat_sessionId : option string
}.
Arguments AiChatRequestDto : clear implicits.

Record AiApplySuggestionRequestDto : Type := {
  apply_sessionId : string;
  apply_suggestionId : string
}.

Record NodeSchema {number : Type} : Type := {
  nodeName : string;
  schema : value number
}.
Arguments NodeSchema : clear implicits.

Record AskContext {number : Type} : Type := {
  ctx_schema : option (list (NodeSchema number));
  ctx_inputSchema : option (NodeSchema number);
  pushRef : string;
  ndvPushRef : string
}.
Arguments AskContext : clear implicits.

Record AiAskRequestDto {number : Type} : Type := {
  question : string;
  context : option (AskContext number);
  forNode : string
}.
Arguments AiAskRequestDto : clear implicits.

(** [AiSelfHostedResponse]: [{ body: response.body }]. *)
Record AiSelfHostedResponse : Type := {
  response_body : option ReadableStream
}.

(** [AiSelfHostedApplySuggestionResponse], with the extra [applied] key the
    clients put in it. *)
Record AiSelfHostedApplySuggestionResponse : Type := {
  sessionId : string;
  suggestionId : string;
  applied : bool
}.

(** [AiSelfHostedAskAiResponse].  Declared [string], but the value comes
    straight from the upstream document. *)
Record AiSelfHostedAskAiResponse {number : Type} : Type := {
  answer : value number
}.
Arguments AiSelfHostedAskAiResponse : clear implicits.

Record AiSelfHostedCredentials : Type := {
  cred_apiKey : string;
  cred_url : string
}.

(** One entry of the [messages] array. *)
Record Message {number : Type} : Type := {
  role : string;
  content : value number
}.
Arguments Message : clear implicits.

Section Shared.
Context {number : Type} `{JsNumber number}.

(** A message as [JSON.stringify] sees it. *)
Definition message_value (m : Message number) : value number :=
  VObj [ ("role", VStr (role m)); ("content", content m) ].

(** The object literal passed to [JSON.stringify] for the request body. *)
Definition body_object (model : string) (messages : list (Message number))
                       (stream : bool) : value number :=
  VObj [ ("model", VStr model);
         ("messages", VArr (map message_value messages));
         ("stream", VBool stream) ].

Definition nl : string := String (ascii_of_N 10) EmptyString.

Definition system_prompt : string :=
  "You are an AI assistant for n8n, a workflow automation platform. Help users with their workflow automation questions and provide accurate, helpful responses.".

Definition no_response : string := "No response generated".

(** [data.choices[0]?.message?.content || 'No response generated'].
    The two plain accesses throw on [undefined] and [null]; the two
    optional ones give [undefined] instead. *)
Definition choices_of (data : value number) : exn + jsval number :=
  match data with
  | VNull => inl (TypeError "Cannot read properties of null (reading 'choices')")
  | _ => inr (get_field data "choices")
  end.

Definition first_of (choices : jsval number) : exn + jsval number :=
  match choices with
  | None => inl (TypeError "Cannot read properties of undefined (reading '0')")
  | Some VNull => inl (TypeError "Cannot read properties of null (reading '0')")
  | Some c => inr (get_index0 c)
  end.

(** [x?.name] *)
Definition optional_field (x : jsval number) (name : string) : jsval number :=
  match x with
  | None | Some VNull => None
  | Some v => get_field v name
  end.

Definition answer_of (data : value number) : exn + value number :=
  match choices_of data with
  | inl e => inl e
  | inr choices =>
      match first_of choices with
      | inl e => inl e
      | inr first =>
          inr (js_or_else
                 (optional_field (optional_field first "message") "content")
                 (VStr no_response))
      end
  end.

End Shared.

(* ===================================================================== *)
(** ** [OpenRouterClient] *)
(* ===================================================================== *)

Module OpenRouterClient.

(** The private fields [apiKey] and [model]; [baseUrl] is a constant of
    the class (lines 37-39). *)
Record t : Type := {
  apiKey : string;
  model : string
}.

Definition baseUrl : string := "https://openrouter.ai/api/v1".

(** The constructor; its second parameter has a default (lines 41-44). *)
Definition constructor (apiKey : string) (model : option string) : t :=
  {| apiKey := apiKey;
     model := match model with
              | Some m => m
              | None => "meta-llama/llama-3.1-8b-instruct:free"
              end |}.

Section Methods.
Context {number : Type} `{JsNumber number}.

(** Lines 126-146.  The array starts with the system message; a user message
    is pushed when [payload.payload] is truthy and of type object. *)
Definition convertPayloadToMessages (payload : AiChatRequestDto number)
  : list (Message number) :=
  let messages := [ {| role := "system"; content := VStr system_prompt |} ] in
  match chat_payload payload with
  | Some p =>
      if truthy p && typeof_object p then
        let userMessage :=
          js_or_else (js_or (get_field p "message") (get_field p "question"))
                     (VStr (JSON_stringify p)) in
        (messages ++ [ {| role := "user"; content := userMessage |} ])%list
      else messages
  | None => messages
  end.

(** Lines 148-169.  The [for] loop over [payload.context.schema] is the
    [fold_left]. *)
Definition buildAskAiPrompt (payload : AiAskRequestDto number) : string :=
  let prompt := "Question: " ++ question payload ++ nl ++ nl in
  let prompt :=
    match context payload with
    | Some ctx =>
        let prompt := prompt ++ "Context:" ++ nl in
        let prompt :=
          match ctx_schema ctx with
          | Some nodes =>
              fold_left
                (fun prompt node =>
                   prompt ++ "- " ++ nodeName node ++ ": "
                          ++ JSON_stringify (schema node) ++ nl)
                nodes
                (prompt ++ "Available nodes and their schemas:" ++ nl)
          | None => prompt
          end in
        match ctx_inputSchema ctx with
        | Some input =>
            prompt ++ "Input schema for " ++ nodeName input ++ ": "
                   ++ JSON_stringify (schema input) ++ nl
        | None => prompt
        end
    | None => prompt
    end in
  let prompt := prompt ++ nl ++ "For node: " ++ forNode payload ++ nl ++ nl in
  prompt ++ "Please provide a helpful answer for this n8n workflow automation question.".

(** The [headers] literal that [chat] and [askAi] both write out. *)
Definition request_headers (self : t) : list (string * string) :=
  [ ("Content-Type", "application/json");
    ("Authorization", "Bearer " ++ apiKey self);
    ("HTTP-Referer", "https://n8n.io");
    ("X-Title", "n8n AI Assistant") ].

(** Lines 46-69. *)
Definition chat (self : t) (payload : AiChatRequestDto number) (user : UserRef)
  : Prog number AiSelfHostedResponse :=
  Fetch {| url := baseUrl ++ "/chat/completions";
           method := "POST";
           headers := request_headers self;
           body := JSON_stringify
                     (body_object (model self)
                                  (convertPayloadToMessages payload) true) |}
    (fun response =>
       if negb (ok response) then
         Throw (Error ("OpenRouter API error: " ++ string_of_N (status response)
                         ++ " " ++ statusText response))
       else
         Ret {| response_body := resp_body response |}).

(** Lines 71-79. *)
Definition applySuggestion (self : t) (payload : AiApplySuggestionRequestDto)
                           (user : UserRef)
  : Prog number AiSelfHostedApplySuggestionResponse :=
  Ret {| sessionId := apply_sessionId payload;
         suggestionId := apply_suggestionId payload;
         applied := true |}.

(** Lines 81-116.  After the status check, [response.json()] may reject and
    reading the answer may throw. *)
Definition askAi (self : t) (payload : AiAskRequestDto number) (user : UserRef)
  : Prog number (AiSelfHostedAskAiResponse number) :=
  let prompt := buildAskAiPrompt payload in
  Fetch {| url := baseUrl ++ "/chat/completions";
           method := "POST";
           headers := request_headers self;
           body := JSON_stringify
                     (body_object (model self)
                        [ {| role := "system"; content := VStr system_prompt |};
                          {| role := "user"; content := VStr prompt |} ]
                        false) |}
    (fun response =>
       if negb (ok response) then
         Throw (Error ("OpenRouter API error: " ++ string_of_N (status response)
                         ++ " " ++ statusText response))
       else
         match resp_json response with
         | inl e => Throw e
         | inr data =>
             match answer_of data with
             | inl e => Throw e
             | inr a => Ret {| answer := a |}
             end
         end).

(** Lines 118-124. *)
Definition generateAiCreditsCredentials (self : t) (user : IUser)
  : Prog number AiSelfHostedCredentials :=
  Ret {| cred_apiKey := apiKey self; cred_url := baseUrl |}.

End Methods.
End OpenRouterClient.

(* ===================================================================== *)
(** ** [OpenAIClient] *)
(* ===================================================================== *)

Module OpenAIClient.

(** The private fields [apiKey] and [model]; [baseUrl] is a constant of
    the class (lines 173-175). *)
Record t : Type := {
  apiKey : string;
  model : string
}.

Definition baseUrl : string := "https://api.openai.com/v1".

(** The constructor; its second parameter has a default (lines 177-180). *)
Definition constructor (apiKey : string) (model : option string) : t :=
  {| apiKey := apiKey;
     model := match model with
              | Some m => m
              | None => "gpt-4o-mini"
              end |}.

Section Methods.
Context {number : Type} `{JsNumber number}.

(** Lines 257-277.  The array starts with the system message; a user message
    is pushed when [payload.payload] is truthy and of type object. *)
Definition convertPayloadToMessages (payload : AiChatRequestDto number)
  : list (Message number) :=
  let messages := [ {| role := "system"; content := VStr system_prompt |} ] in
  match chat_payload payload with
  | Some p =>
      if truthy p && typeof_object p then
        let userMessage :=
          js_or_else (js_or (get_field p "message") (get_field p "question"))
                     (VStr (JSON_stringify p)) in
        (messages ++ [ {| role := "user"; content := userMessage |} ])%list
      else messages
  | None => messages
  end.

(** Lines 279-300.  The [for] loop over [payload.context.schema] is the
    [fold_left]. *)
Definition buildAskAiPrompt (payload : AiAskRequestDto number) : string :=
  let prompt := "Question: " ++ question payload ++ nl ++ nl in
  let prompt :=
    match context payload with
    | Some ctx =>
        let prompt := prompt ++ "Context:" ++ nl in
        let prompt :=
          match ctx_schema ctx with
          | Some nodes =>
              fold_left
                (fun prompt node =>
                   prompt ++ "- " ++ nodeName node ++ ": "
                          ++ JSON_stringify (schema node) ++ nl)
                nodes
                (prompt ++ "Available nodes and their schemas:" ++ nl)
          | None => prompt
          end in
        match ctx_inputSchema ctx with
        | Some input =>
            prompt ++ "Input schema for " ++ nodeName input ++ ": "
                   ++ JSON_stringify (schema input) ++ nl
        | None => prompt
        end
    | None => prompt
    end in
  let prompt := prompt ++ nl ++ "For node: " ++ forNode payload ++ nl ++ nl in
  prompt ++ "Please provide a helpful answer for this n8n workflow automation question.".

(** The [headers] literal that [chat] and [askAi] both write out. *)
Definition request_headers (self : t) : list (string * string) :=
  [ ("Content-Type", "application/json");
    ("Authorization", "Bearer " ++ apiKey self) ].

(** Lines 182-203. *)
Definition chat (self : t) (payload : AiChatRequestDto number) (user : UserRef)
  : Prog number AiSelfHostedResponse :=
  Fetch {| url := baseUrl ++ "/chat/completions";
           method := "POST";
           headers := request_headers self;
           body := JSON_stringify
                     (body_object (model self)
                                  (convertPayloadToMessages payload) true) |}
    (fun response =>
       if negb (ok response) then
         Throw (Error ("OpenAI API error: " ++ string_of_N (status response)
                         ++ " " ++ statusText response))
       else
         Ret {| response_body := resp_body response |}).

(** Lines 205-212. *)
Definition applySuggestion (self : t) (payload : AiApplySuggestionRequestDto)
                           (user : UserRef)
  : Prog number AiSelfHostedApplySuggestionResponse :=
  Ret {| sessionId := apply_sessionId payload;
         suggestionId := apply_suggestionId payload;
         applied := true |}.

(** Lines 214-247.  After the status check, [response.json()] may reject and
    reading the answer may throw. *)
Definition askAi (self : t) (payload : AiAskRequestDto number) (user : UserRef)
  : Prog number (AiSelfHostedAskAiResponse number) :=
  let prompt := buildAskAiPrompt payload in
  Fetch {| url := baseUrl ++ "/chat/completions";
           method := "POST";
           headers := request_headers self;
           body := JSON_stringify
                     (body_object (model self)
                        [ {| role := "system"; content := VStr system_prompt |};
                          {| role := "user"; content := VStr prompt |} ]
                        false) |}
    (fun response =>
       if negb (ok response) then
         Throw (Error ("OpenAI API error: " ++ string_of_N (status response)
                         ++ " " ++ statusText response))
       else
         match resp_json response with
         | inl e => Throw e
         | inr data =>
             match answer_of data with
             | inl e => Throw e
             | inr a => Ret {| answer := a |}
             end
         end).

(** Lines 249-255. *)
Definition generateAiCreditsCredentials (self : t) (user : IUser)
  : Prog number AiSelfHostedCredentials :=
  Ret {| cred_apiKey := apiKey self; cred_url := baseUrl |}.

End Methods.
End OpenAIClient.

(* ===================================================================== *)
(** ** The interface [AiSelfHostedClient] *)
(* ===================================================================== *)

Class AiSelfHostedClient {number : Type} (C : Type) : Type := {
  chat : C -> AiChatRequestDto number -> UserRef
         -> Prog number AiSelfHostedResponse;
  applySuggestion : C -> AiApplySuggestionRequestDto -> UserRef
                    -> Prog number AiSelfHostedApplySuggestionResponse;
  askAi : C -> AiAskRequestDto number -> UserRef
          -> Prog number (AiSelfHostedAskAiResponse number);
  generateAiCreditsCredentials : C -> IUser
                                 -> Prog number AiSelfHostedCredentials
}.

(** An object known only through the interface: one of the two classes that
    implement it. *)
Inductive SelfHosted : Type :=
| OpenRouter (c : OpenRouterClient.t)
| OpenAI (c : OpenAIClient.t).

Section Implementations.
Context {number : Type} `{JsNumber number}.

#[export] Instance OpenRouterClient_implements
  : AiSelfHostedClient (number := number) OpenRouterClient.t := {
  chat := OpenRouterClient.chat;
  applySuggestion := OpenRouterClient.applySuggestion;
  askAi := OpenRouterClient.askAi;
  generateAiCreditsCredentials := OpenRouterClient.generateAiCreditsCredentials
}.

#[export] Instance OpenAIClient_implements
  : AiSelfHostedClient (number := number) OpenAIClient.t := {
  chat := OpenAIClient.chat;
  applySuggestion := OpenAIClient.applySuggestion;
  askAi := OpenAIClient.askAi;
  generateAiCreditsCredentials := OpenAIClient.generateAiCreditsCredentials
}.

(** Dynamic dispatch. *)
#[export] Instance SelfHosted_implements
  : AiSelfHostedClient (number := number) SelfHosted := {
  chat c :=
    match c with OpenRouter c => chat c | OpenAI c => chat c end;
  applySuggestion c :=
    match c with
    | OpenRouter c => applySuggestion c
    | OpenAI c => applySuggestion c
    end;
  askAi c :=
    match c with OpenRouter c => askAi c | OpenAI c => askAi c end;
  generateAiCreditsCredentials c :=
    match c with
    | OpenRouter c => generateAiCreditsCredentials c
    | OpenAI c => generateAiCreditsCredentials c
    end
}.

(** The fields every implementation has. *)
Definition api_key (c : SelfHosted) : string :=
  match c with
  | OpenRouter c => OpenRouterClient.apiKey c
  | OpenAI c => OpenAIClient.apiKey c
  end.

Definition model_id (c : SelfHosted) : string :=
  match c with
  | OpenRouter c => OpenRouterClient.model c
  | OpenAI c => OpenAIClient.model c
  end.

Definition base_url (c : SelfHosted) : string :=
  match c with
  | OpenRouter _ => OpenRouterClient.baseUrl
  | OpenAI _ => OpenAIClient.baseUrl
  end.

Definition provider_name (c : SelfHosted) : string :=
  match c with
  | OpenRouter _ => "OpenRouter"
  | OpenAI _ => "OpenAI"
  end.

End Implementations.

(* ===================================================================== *)
(** ** Configuration, license and the licensed SDK client *)
(* ===================================================================== *)

(** [AiAssistantConfig]; strings come from the environment. *)
Record AiAssistantConfig : Type := {
  baseUrl : string;
  openRouterApiKey : string;
  openAiApiKey : string;
  openRouterModel : string;
  openAiModel : string;
  selfHostedEnabled : bool
}.

(** The field initialisers of the class. *)
Definition default_AiAssistantConfig : AiAssistantConfig := {|
  baseUrl := EmptyString;
  openRouterApiKey := EmptyString;
  openAiApiKey := EmptyString;
  openRouterModel := "meta-llama/llama-3.1-8b-instruct:free";
  openAiModel := "gpt-4o-mini";
  selfHostedEnabled := false
|}.

(** The part of [GlobalConfig] the service reads. *)
Record GlobalConfig : Type := {
  aiAssistant : AiAssistantConfig;
  logging_level : string
}.

(** The [License] service, through the three methods the service calls.
    [loadCertStr] is asynchronous and may reject. *)
Record License : Type := {
  isAiAssistantEnabled : bool;
  loadCertStr : exn + string;
  getConsumerId : string
}.

(** The options object given to [new AiAssistantClient(...)]; the client
    object is identified with the options it was built from. *)
Record AiAssistantClient : Type := {
  licenseCert : string;
  consumerId : string;
  n8nVersion : string;
  client_baseUrl : string;
  logLevel : string
}.

(** What is imported from outside the files under study: the constant
    [N8N_VERSION] and the methods of the SDK class [AiAssistantClient],
    with whatever they return. *)
Class External {number : Type} : Type := {
  N8N_VERSION : string;
  SdkChatResponse : Type;
  SdkApplySuggestionResponse : Type;
  SdkAskAiResponse : Type;
  SdkCredentials : Type;
  sdk_chat : AiAssistantClient -> AiChatRequestDto number -> UserRef
             -> Prog number SdkChatResponse;
  sdk_applySuggestion : AiAssistantClient -> AiApplySuggestionRequestDto
                        -> UserRef -> Prog number SdkApplySuggestionResponse;
  sdk_askAi : AiAssistantClient -> AiAskRequestDto number -> UserRef
              -> Prog number SdkAskAiResponse;
  sdk_generateAiCreditsCredentials : AiAssistantClient -> IUser
                                     -> Prog number SdkCredentials
}.
Arguments External : clear implicits.

(** Truthiness of a string. *)
Definition nonempty (s : string) : bool := negb (String.eqb s EmptyString).

Definition is_some {A : Type} (x : option A) : bool :=
  match x with Some _ => true | None => false end.

(* ===================================================================== *)
(** ** [AiService] *)
(* ===================================================================== *)

Module AiService.

(** The private fields.  The two injected services are part of the object;
    the other three are the mutable state. *)
Record t : Type := {
  client : option AiAssistantClient;
  selfHostedClient : option SelfHosted;
  isUsingLicensedClient : bool;
  licenseService : License;
  globalConfig : GlobalConfig
}.

Definition constructor (licenseService : License) (globalConfig : GlobalConfig)
  : t :=
  {| client := None;
     selfHostedClient := None;
     isUsingLicensedClient := false;
     licenseService := licenseService;
     globalConfig := globalConfig |}.

Definition set_client (self : t) (c : AiAssistantClient) : t :=
  {| client := Some c;
     selfHostedClient := selfHostedClient self;
     isUsingLicensedClient := isUsingLicensedClient self;
     licenseService := licenseService self;
     globalConfig := globalConfig self |}.

Definition set_selfHostedClient (self : t) (c : SelfHosted) : t :=
  {| client := client self;
     selfHostedClient := Some c;
     isUsingLicensedClient := isUsingLicensedClient self;
     licenseService := licenseService self;
     globalConfig := globalConfig self |}.

Definition set_isUsingLicensedClient (self : t) (b : bool) : t :=
  {| client := client self;
     selfHostedClient := selfHostedClient self;
     isUsingLicensedClient := b;
     licenseService := licenseService self;
     globalConfig := globalConfig self |}.

Section Methods.
Context {number : Type} `{JsNumber number} `{External number}.

(** A method call gives the object after the call and how the promise
    settles; no method touches the fields after its first client call, so
    the object is known before any request is sent. *)
Definition Call (A : Type) : Type := (t * Prog number A)%type.

(** [init] (ai.service.ts lines 26-64) sends no request: the object after
    it, and [inl e] when the promise rejects, which happens only when
    [loadCertStr] does, before any field is assigned. *)
Definition init (self : t) : t * (exn + unit) :=
  let aiAssistantEnabled := isAiAssistantEnabled (licenseService self) in
  let selfHostedEnabled := selfHostedEnabled (aiAssistant (globalConfig self)) in
  let openRouterKey := openRouterApiKey (aiAssistant (globalConfig self)) in
  let openAiKey := openAiApiKey (aiAssistant (globalConfig self)) in
  if aiAssistantEnabled then
    match loadCertStr (licenseService self) with
    | inl e => (self, inl e)
    | inr licenseCert =>
        let consumerId := getConsumerId (licenseService self) in
        let baseUrl := baseUrl (aiAssistant (globalConfig self)) in
        let logLevel := logging_level (globalConfig self) in
        let self :=
          set_client self {| licenseCert := licenseCert;
                             consumerId := consumerId;
                             n8nVersion := N8N_VERSION;
                             client_baseUrl := baseUrl;
                             logLevel := logLevel |} in
        (set_isUsingLicensedClient self true, inr tt)
    end
  else if selfHostedEnabled && (nonempty openRouterKey || nonempty openAiKey) then
    let self :=
      if nonempty openRouterKey then
        set_selfHostedClient self
          (OpenRouter
             (OpenRouterClient.constructor openRouterKey
                (Some (openRouterModel (aiAssistant (globalConfig self))))))
      else if nonempty openAiKey then
        set_selfHostedClient self
          (OpenAI
             (OpenAIClient.constructor openAiKey
                (Some (openAiModel (aiAssistant (globalConfig self))))))
      else self in
    (set_isUsingLicensedClient self false, inr tt)
  else (self, inr tt).

(** The guard every operation starts with:
    [if (!this.client && !this.selfHostedClient) await this.init()]. *)
Definition ensure_init (self : t) : t * (exn + unit) :=
  if negb (is_some (client self)) && negb (is_some (selfHostedClient self))
  then init self
  else (self, inr tt).

(** Each operation (lines 66-78, 80-92, 94-106 and 108-120) runs the guard,
    then forwards to the client the flag designates.  The result is the
    union of what the two clients return. *)
Definition chat (self : t) (payload : AiChatRequestDto number) (user : IUser)
  : Call (SdkChatResponse + AiSelfHostedResponse) :=
  let (self, started) := ensure_init self in
  match started with
  | inl e => (self, Throw e)
  | inr _ =>
      (self,
       if isUsingLicensedClient self then
         c <- assert (client self) "Licensed assistant client not setup" ;;
         fmap inl (sdk_chat c payload {| ref_id := id user |})
       else
         c <- assert (selfHostedClient self)
                     "Self-hosted assistant client not setup" ;;
         fmap inr (chat c payload {| ref_id := id user |}))
  end.

Definition applySuggestion (self : t) (payload : AiApplySuggestionRequestDto)
                           (user : IUser)
  : Call (SdkApplySuggestionResponse + AiSelfHostedApplySuggestionResponse) :=
  let (self, started) := ensure_init self in
  match started with
  | inl e => (self, Throw e)
  | inr _ =>
      (self,
       if isUsingLicensedClient self then
         c <- assert (client self) "Licensed assistant client not setup" ;;
         fmap inl (sdk_applySuggestion c payload {| ref_id := id user |})
       else
         c <- assert (selfHostedClient self)
                     "Self-hosted assistant client not setup" ;;
         fmap inr (applySuggestion c payload {| ref_id := id user |}))
  end.

Definition askAi (self : t) (payload : AiAskRequestDto number) (user : IUser)
  : Call (SdkAskAiResponse + AiSelfHostedAskAiResponse number) :=
  let (self, started) := ensure_init self in
  match started with
  | inl e => (self, Throw e)
  | inr _ =>
      (self,
       if isUsingLicensedClient self then
         c <- assert (client self) "Licensed assistant client not setup" ;;
         fmap inl (sdk_askAi c payload {| ref_id := id user |})
       else
         c <- assert (selfHostedClient self)
                     "Self-hosted assistant client not setup" ;;
         fmap inr (askAi c payload {| ref_id := id user |}))
  end.

Definition createFreeAiCredits (self : t) (user : IUser)
  : Call (SdkCredentials + AiSelfHostedCredentials) :=
  let (self, started) := ensure_init self in
  match started with
  | inl e => (self, Throw e)
  | inr _ =>
      (self,
       if isUsingLicensedClient self then
         c <- assert (client self) "Licensed assistant client not setup" ;;
         fmap inl (sdk_generateAiCreditsCredentials c user)
       else
         c <- assert (selfHostedClient self)
                     "Self-hosted assistant client not setup" ;;
         fmap inr (generateAiCreditsCredentials c user))
  end.

End Methods.
End AiService.

(* ===================================================================== *)
(** ** Concrete inputs used to run the model *)
(* ===================================================================== *)

(** A stand-in for the SDK: every method posts once to the assistant
    service and returns the status it gets. *)
Definition sample_sdk_call (c : AiAssistantClient) (path : string)
  : Prog Z N :=
  Fetch {| url := client_baseUrl c ++ path;
           method := "POST";
           headers := [("x-consumer-id", consumerId c)];
           body := "{}" |}
        (fun r => Ret (status r)).

#[export] Instance sample_sdk : External Z := {
  N8N_VERSION := "1.0.0";
  SdkChatResponse := N;
  SdkApplySuggestionResponse := N;
  SdkAskAiResponse := N;
  SdkCredentials := N;
  sdk_chat c _ _ := sample_sdk_call c "/v1/chat";
  sdk_applySuggestion c _ _ := sample_sdk_call c "/v1/chat/apply-suggestion";
  sdk_askAi c _ _ := sample_sdk_call c "/v1/ask-ai";
  sdk_generateAiCreditsCredentials c _ := sample_sdk_call c "/v1/credits"
}.

Definition mockUser : IUser :=
  {| id := "user123"; email := "test@example.com";
     firstName := "Test"; lastName := "User" |}.

Definition hello_payload : AiChatRequestDto Z :=
  {| chat_payload := Some (VObj [("message", VStr "Hello")]);
     chat_sessionId := Some "session123" |}.

Definition test_question : AiAskRequestDto Z :=
  {| question := "Test question";
     context :=
       Some {| ctx_schema := Some [];
               ctx_inputSchema :=
                 Some {| nodeName := "Test";
                         schema := VObj [("type", VStr "object");
                                         ("path", VStr "/test");
                                         ("value", VStr "test")] |};
               pushRef := "push123";
               ndvPushRef := "ndv123" |};
     forNode := "Test Node" |}.

Definition apply_payload : AiApplySuggestionRequestDto :=
  {| apply_sessionId := "session123"; apply_suggestionId := "suggestion456" |}.

Definition openrouter_test_client : SelfHosted :=
  OpenRouter (OpenRouterClient.constructor "test-api-key" (Some "test-model")).

Definition openai_test_client : SelfHosted :=
  OpenAI (OpenAIClient.constructor "test-openai-key" (Some "gpt-4")).

(** A network that answers every request with the same response. *)
Definition always (r : Response Z) : Network (number := Z) := fun _ => inr r.

Definition unauthorized : Response Z :=
  {| status := 401; statusText := "Unauthorized";
     resp_body := None; resp_json := inl (Rejection "Unexpected end of JSON input") |}.

(** A 200 response carrying the given document. *)
Definition success (data : value Z) : Response Z :=
  {| status := 200; statusText := "OK";
     resp_body := None; resp_json := inr data |}.

(** [{ choices: [ { message: { content: c } } ] }] *)
Definition completion (c : value Z) : value Z :=
  VObj [("choices", VArr [VObj [("message", VObj [("content", c)])]])].

(** No license, nothing configured: the state of a fresh installation. *)
Definition no_license : License :=
  {| isAiAssistantEnabled := false;
     loadCertStr := inr EmptyString;
     getConsumerId := "unknown" |}.

Definition enterprise_license : License :=
  {| isAiAssistantEnabled := true;
     loadCertStr := inr "cert";
     getConsumerId := "consumer-1" |}.

Definition default_config : GlobalConfig :=
  {| aiAssistant := default_AiAssistantConfig; logging_level := "info" |}.

Definition openrouter_config : GlobalConfig :=
  {| aiAssistant :=
       {| baseUrl := EmptyString;
          openRouterApiKey := "sk-or-1";
          openAiApiKey := "sk-oa-1";
          openRouterModel := "meta-llama/llama-3.1-8b-instruct:free";
          openAiModel := "gpt-4o-mini";
          selfHostedEnabled := true |};
     logging_level := "info" |}.

(* ===================================================================== *)
(** ** Vocabulary of the statements *)
(* ===================================================================== *)

(** The value of a request header. *)
Fixpoint header (name : string) (hs : list (string * string)) : option string :=
  match hs with
  | [] => None
  | (k, v) :: rest => if String.eqb k name then Some v else header name rest
  end.

Section Vocabulary.
Context {number : Type} `{JsNumber number}.

(** The request carries the bearer token of [c], and its body is the JSON
    text of an object with the model of [c] under [model] and a non-empty
    array under [messages]. *)
Definition authorized_completion_request (c : SelfHosted) (req : Request)
  : Prop :=
  header "Authorization" (headers req) = Some ("Bearer " ++ api_key c) /\
  exists (o first : value number) (rest : list (value number)),
    body req = JSON_stringify o /\
    get_field o "model" = Some (VStr (model_id c)) /\
    get_field o "messages" = Some (VArr (first :: rest)).

(** The private method [convertPayloadToMessages] of whichever class [c]
    belongs to. *)
Definition chat_messages (c : SelfHosted) (payload : AiChatRequestDto number)
  : list (Message number) :=
  match c with
  | OpenRouter _ => OpenRouterClient.convertPayloadToMessages payload
  | OpenAI _ => OpenAIClient.convertPayloadToMessages payload
  end.

(** The document's [choices[0].message.content], read one property at a
    time; [None] when any step of the path is missing. *)
Definition content_at (data : value number) : jsval number :=
  match get_field data "choices" with
  | Some choices =>
      match get_index0 choices with
      | Some first =>
          match get_field first "message" with
          | Some message => get_field message "content"
          | None => None
          end
      | None => None
      end
  | None => None
  end.

(** The network's answer to the first request of a call. *)
Definition answers_with (net : Network (number := number))
                        (resp : Response number) : Prop :=
  forall req : Request, net [req] = inr resp.

End Vocabulary.

(** How many clients the service holds. *)
Definition selected (self : AiService.t) : nat :=
  (if is_some (AiService.client self) then 1 else 0) +
  (if is_some (AiService.selfHostedClient self) then 1 else 0).

(** The same mutable state around other injected services. *)
Definition with_services (self : AiService.t) (lic : License)
                         (cfg : GlobalConfig) : AiService.t :=
  {| AiService.client := AiService.client self;
     AiService.selfHostedClient := AiService.selfHostedClient self;
     AiService.isUsingLicensedClient := AiService.isUsingLicensedClient self;
     AiService.licenseService := lic;
     AiService.globalConfig := cfg |}.

Section ServiceVocabulary.
Context {number : Type} `{JsNumber number} `{External number}.

(** Each of the four operations is the call of the same method of the
    licensed client [c], with the payload and [{ id: user.id }] (the whole
    user for the credentials). *)
Definition forwards_to_licensed (self : AiService.t) (c : AiAssistantClient)
    (pc : AiChatRequestDto number) (pa : AiApplySuggestionRequestDto)
    (pq : AiAskRequestDto number) (user : IUser) : Prop :=
  snd (AiService.chat self pc user)
    = fmap inl (sdk_chat c pc {| ref_id := id user |}) /\
  snd (AiService.applySuggestion self pa user)
    = fmap inl (sdk_applySuggestion c pa {| ref_id := id user |}) /\
  snd (AiService.askAi self pq user)
    = fmap inl (sdk_askAi c pq {| ref_id := id user |}) /\
  snd (AiService.createFreeAiCredits self user)
    = fmap inl (sdk_generateAiCreditsCredentials c user).

(** The same towards the self-hosted client [c]. *)
Definition forwards_to_self_hosted (self : AiService.t) (c : SelfHosted)
    (pc : AiChatRequestDto number) (pa : AiApplySuggestionRequestDto)
    (pq : AiAskRequestDto number) (user : IUser) : Prop :=
  snd (AiService.chat self pc user)
    = fmap inr (chat c pc {| ref_id := id user |}) /\
  snd (AiService.applySuggestion self pa user)
    = fmap inr (applySuggestion c pa {| ref_id := id user |}) /\
  snd (AiService.askAi self pq user)
    = fmap inr (askAi c pq {| ref_id := id user |}) /\
  snd (AiService.createFreeAiCredits self user)
    = fmap inr (generateAiCreditsCredentials c user).

(** Each of the four operations throws the same exception and calls no
    client. *)
Definition all_throw (self : AiService.t) (e : exn)
    (pc : AiChatRequestDto number) (pa : AiApplySuggestionRequestDto)
    (pq : AiAskRequestDto number) (user : IUser) : Prop :=
  snd (AiService.chat self pc user) = Throw e /\
  snd (AiService.applySuggestion self pa user) = Throw e /\
  snd (AiService.askAi self pq user) = Throw e /\
  snd (AiService.createFreeAiCredits self user) = Throw e.

(** The four operations do the same on [a] as on [b]: same object afterwards,
    same program. *)
Definition same_calls (a b : AiService.t)
    (pc : AiChatRequestDto number) (pa : AiApplySuggestionRequestDto)
    (pq : AiAskRequestDto number) (user : IUser) : Prop :=
  AiService.chat a pc user = AiService.chat b pc user /\
  AiService.applySuggestion a pa user = AiService.applySuggestion b pa user /\
  AiService.askAi a pq user = AiService.askAi b pq user /\
  AiService.createFreeAiCredits a user = AiService.createFreeAiCredits b user.

(** The three ways [init] can complete from the state the constructor
    leaves. *)
Inductive init_result (lic : License) (cfg : GlobalConfig)
  : AiService.t -> Prop :=
| init_licensed (cert : string) :
    isAiAssistantEnabled lic = true ->
    loadCertStr lic = inr cert ->
    init_result lic cfg
      {| AiService.client :=
           Some {| licenseCert := cert;
                   consumerId := getConsumerId lic;
                   n8nVersion := N8N_VERSION;
                   client_baseUrl := baseUrl (aiAssistant cfg);
                   logLevel := logging_level cfg |};
         AiService.selfHostedClient := None;
         AiService.isUsingLicensedClient := true;
         AiService.licenseService := lic;
         AiService.globalConfig := cfg |}
| init_self_hosted (c : SelfHosted) :
    isAiAssistantEnabled lic = false ->
    selfHostedEnabled (aiAssistant cfg) = true ->
    (openRouterApiKey (aiAssistant cfg) <> EmptyString /\
     c = OpenRouter
           {| OpenRouterClient.apiKey := openRouterApiKey (aiAssistant cfg);
              OpenRouterClient.model := openRouterModel (aiAssistant cfg) |}
     \/
     openRouterApiKey (aiAssistant cfg) = EmptyString /\
     openAiApiKey (aiAssistant cfg) <> EmptyString /\
     c = OpenAI
           {| OpenAIClient.apiKey := openAiApiKey (aiAssistant cfg);
              OpenAIClient.model := openAiModel (aiAssistant cfg) |}) ->
    init_result lic cfg
      {| AiService.client := None;
         AiService.selfHostedClient := Some c;
         AiService.isUsingLicensedClient := false;
         AiService.licenseService := lic;
         AiService.globalConfig := cfg |}
| init_nothing :
    isAiAssistantEnabled lic = false ->
    (selfHostedEnabled (aiAssistant cfg) = false \/
     openRouterApiKey (aiAssistant cfg) = EmptyString /\
     openAiApiKey (aiAssistant cfg) = EmptyString) ->
    init_result lic cfg (AiService.constructor lic cfg).

End ServiceVocabulary.

(* ===================================================================== *)
(** ** Vocabulary of the further properties *)
(* ===================================================================== *)

Definition starts_with (s pre : string) : Prop :=
  exists rest : string, s = pre ++ rest.

Definition ends_with (s suf : string) : Prop :=
  exists front : string, s = front ++ suf.

(** The last sentence of every prompt. *)
Definition prompt_trailer : string :=
  "Please provide a helpful answer for this n8n workflow automation question.".

Section FurtherVocabulary.
Context {number : Type} `{JsNumber number}.

(** The values that pass [payload.payload && typeof payload.payload ===
    'object']: arrays and objects. *)
Definition is_object_like (v : value number) : bool :=
  match v with
  | VArr _ | VObj _ => true
  | VNull | VBool _ | VNum _ | VStr _ => false
  end.

Definition system_message : Message number :=
  {| role := "system"; content := VStr system_prompt |}.

Definition user_message (c : value number) : Message number :=
  {| role := "user"; content := c |}.

(** The private method [buildAskAiPrompt] of whichever class [c] belongs
    to. *)
Definition ask_prompt (c : SelfHosted) (payload : AiAskRequestDto number)
  : string :=
  match c with
  | OpenRouter _ => OpenRouterClient.buildAskAiPrompt payload
  | OpenAI _ => OpenAIClient.buildAskAiPrompt payload
  end.

(** The line the prompt gives to one node of [context.schema]. *)
Definition node_line (n : NodeSchema number) : string :=
  "- " ++ nodeName n ++ ": " ++ JSON_stringify (schema n) ++ nl.

(** The part of the prompt between the question and the node name, written
    as a concatenation rather than accumulated. *)
Definition schema_block (nodes : option (list (NodeSchema number))) : string :=
  match nodes with
  | Some nodes =>
      "Available nodes and their schemas:" ++ nl
        ++ String.concat EmptyString (map node_line nodes)
  | None => EmptyString
  end.

Definition input_block (input : option (NodeSchema number)) : string :=
  match input with
  | Some input =>
      "Input schema for " ++ nodeName input ++ ": "
        ++ JSON_stringify (schema input) ++ nl
  | None => EmptyString
  end.

Definition context_block (ctx : option (AskContext number)) : string :=
  match ctx with
  | Some ctx =>
      "Context:" ++ nl ++ schema_block (ctx_schema ctx)
                 ++ input_block (ctx_inputSchema ctx)
  | None => EmptyString
  end.

(** Two contexts that differ at most in [pushRef] and [ndvPushRef]. *)
Definition same_prompt_context (a b : option (AskContext number)) : Prop :=
  match a, b with
  | Some x, Some y =>
      ctx_schema x = ctx_schema y /\ ctx_inputSchema x = ctx_inputSchema y
  | None, None => True
  | _, _ => False
  end.

(** Two requests that agree on everything but the URL and the headers
    other than [Content-Type] and [Authorization]. *)
Definition same_completion_request (a b : Request) : Prop :=
  method a = method b /\
  body a = body b /\
  header "Content-Type" (headers a) = header "Content-Type" (headers b) /\
  header "Authorization" (headers a) = header "Authorization" (headers b).

(** A chat-completion request to the provider at [base], authorized with
    [key], for the model [model]. *)
Definition completion_request_to (base key model : string) (req : Request)
  : Prop :=
  url req = base ++ "/chat/completions" /\
  header "Authorization" (headers req) = Some ("Bearer " ++ key) /\
  exists o : value number,
    body req = JSON_stringify o /\ get_field o "model" = Some (VStr model).

(** The network fails the first request of a call. *)
Definition rejects_with (net : Network (number := number)) (e : exn) : Prop :=
  forall req : Request, net [req] = inl e.

End FurtherVocabulary.

Section FurtherServiceVocabulary.
Context {number : Type} `{JsNumber number} `{External number}.

(** The life of a service object: it is constructed; [init] and the four
    operations run on it, in any order and with any arguments; between two
    calls the license and the configuration may come to answer
    differently. *)
Inductive reachable : AiService.t -> Prop :=
| reach_constructor (lic : License) (cfg : GlobalConfig) :
    reachable (AiService.constructor lic cfg)
| reach_init (self : AiService.t) :
    reachable self -> reachable (fst (AiService.init self))
| reach_chat (self : AiService.t) (payload : AiChatRequestDto number)
             (user : IUser) :
    reachable self -> reachable (fst (AiService.chat self payload user))
| reach_applySuggestion (self : AiService.t)
                        (payload : AiApplySuggestionRequestDto) (user : IUser) :
    reachable self ->
    reachable (fst (AiService.applySuggestion self payload user))
| reach_askAi (self : AiService.t) (payload : AiAskRequestDto number)
              (user : IUser) :
    reachable self -> reachable (fst (AiService.askAi self payload user))
| reach_createFreeAiCredits (self : AiService.t) (user : IUser) :
    reachable self -> reachable (fst (AiService.createFreeAiCredits self user))
| reach_services (self : AiService.t) (lic : License) (cfg : GlobalConfig) :
    reachable self -> reachable (with_services self lic cfg).

(** The client the flag designates is there whenever any client is. *)
Definition designated_client_present (self : AiService.t) : Prop :=
  (AiService.isUsingLicensedClient self = true ->
     AiService.client self <> None) /\
  (AiService.isUsingLicensedClient self = false ->
     AiService.client self <> None ->
     AiService.selfHostedClient self <> None).

(** The licensed client [init] builds. *)
Definition licensed_client (lic : License) (cfg : GlobalConfig)
                           (cert : string) : AiAssistantClient :=
  {| licenseCert := cert;
     consumerId := getConsumerId lic;
     n8nVersion := N8N_VERSION;
     client_baseUrl := baseUrl (aiAssistant cfg);
     logLevel := logging_level cfg |}.

End FurtherServiceVocabulary.

(** A license that is granted but whose certificate cannot be loaded. *)
Definition unloadable_license : License :=
  {| isAiAssistantEnabled := true;
     loadCertStr := inl (Rejection "database unavailable");
     getConsumerId := "consumer-1" |}.

(** Self-hosted mode with the OpenAI key only. *)
Definition openai_config : GlobalConfig :=
  {| aiAssistant :=
       {| baseUrl := EmptyString;
          openRouterApiKey := EmptyString;
          openAiApiKey := "sk-oa-1";
          openRouterModel := "meta-llama/llama-3.1-8b-instruct:free";
          openAiModel := "gpt-4o-mini";
          selfHostedEnabled := true |};
     logging_level := "info" |}.


(** A 200 response that streams server-sent events; its body is not a JSON
    document. *)
Definition streaming : Response Z :=
  {| status := 200; statusText := "OK";
     resp_body := Some "data: [DONE]";
     resp_json := inl (Rejection "Unexpected token 'd'") |}.

(** A network that is down. *)
Definition offline : Network (number := Z) :=
  fun _ => inl (Rejection "fetch failed").

(** The hello payload in another session. *)
Definition hello_payload_again : AiChatRequestDto Z :=
  {| chat_payload := Some (VObj [("message", VStr "Hello")]);
     chat_sessionId := Some "session456" |}.

(** The test question pushed from another editor panel. *)
Definition test_question_elsewhere : AiAskRequestDto Z :=
  {| question := "Test question";
     context :=
       Some {| ctx_schema := Some [];
               ctx_inputSchema :=
                 Some {| nodeName := "Test";
                         schema := VObj [("type", VStr "object");
                                         ("path", VStr "/test");
                                         ("value", VStr "test")] |};
               pushRef := "push999";
               ndvPushRef := "ndv999" |};
     forNode := "Test Node" |}.

(** A payload with an empty [message] and a [question]. *)
Definition question_payload : AiChatRequestDto Z :=
  {| chat_payload := Some (VObj [("message", VStr EmptyString);
                                 ("question", VStr "Why?")]);
     chat_sessionId := None |}.

(* ===================================================================== *)
(** ** Properties of the two self-hosted clients *)
(* ===================================================================== *)

Lemma append_assoc (a b c : string) : (a ++ b) ++ c = a ++ (b ++ c).
Proof.
  induction a as [| ch a IH]; simpl; [reflexivity | now rewrite IH].
Qed.

Lemma append_empty_r (a : string) : a ++ EmptyString = a.
Proof.
  induction a as [| ch a IH]; simpl; [reflexivity | now rewrite IH].
Qed.

(** *** Running programs *)

Section ProgramProperties.
Context {number : Type}.

(** Running a program only ever adds to what was sent before it. *)
Lemma run_from_extends {A : Type} (net : Network (number := number))
    (p : Prog number A) :
  forall sent : list Request,
    exists more : list Request,
      requests (run_from net sent p) = (sent ++ more)%list.
Proof.
  induction p as [a | e | req k IH]; intros sent; simpl.
  - exists []. now rewrite app_nil_r.
  - exists []. now rewrite app_nil_r.
  - destruct (net (sent ++ [req])%list) as [e | resp].
    + now exists [req].
    + destruct (IH resp (sent ++ [req])%list) as [more Hmore].
      exists (req :: more). rewrite Hmore, <- app_assoc. reflexivity.
Qed.

(** Mapping over the result of a program changes neither the requests nor
    the failure. *)
Lemma run_from_fmap {A B : Type} (f : A -> B)
    (net : Network (number := number)) (p : Prog number A) :
  forall sent : list Request,
    run_from net sent (fmap f p)
      = (requests (run_from net sent p),
         match settled (run_from net sent p) with
         | inl e => inl e
         | inr a => inr (f a)
         end).
Proof.
  induction p as [a | e | req k IH]; intros sent; simpl; try reflexivity.
  destruct (net (sent ++ [req])%list) as [e | resp]; [reflexivity |].
  apply IH.
Qed.

(** A program that sends nothing settles the same way on every network. *)
Lemma run_from_silent {A : Type} (net1 net2 : Network (number := number))
    (p : Prog number A) :
  requests (run net1 p) = [] -> run net2 p = run net1 p.
Proof.
  destruct p as [a | e | req k]; try reflexivity.
  unfold run. simpl. intros Hsent.
  destruct (net1 [req]) as [e | resp]; simpl in Hsent; [discriminate |].
  destruct (run_from_extends net1 (k resp) [req]) as [more Hmore].
  rewrite Hmore in Hsent. discriminate.
Qed.

End ProgramProperties.

(** *** The two clients *)

Section ClientProperties.
Context {number : Type} `{JsNumber number}.

Lemma ok_false_iff (r : Response number) :
  ok r = false <-> (status r < 200 \/ 299 < status r)%N.
Proof.
  unfold ok. rewrite andb_false_iff, !N.leb_gt. reflexivity.
Qed.

(** C7: every [chat] and every [askAi] call on either self-hosted client
    sends exactly one upstream request, whatever the network answers and
    however the call settles. *)
Theorem C7_exactly_one_request
    (c : SelfHosted) (payload : AiChatRequestDto number)
    (ask : AiAskRequestDto number) (user : UserRef)
    (net : Network (number := number)) :
  length (requests (run net (chat c payload user))) = 1 /\
  length (requests (run net (askAi c ask user))) = 1.
Proof.
  destruct c as [c | c]; split; unfold run; simpl.
  all: destruct (net _) as [e | r].
  all: try reflexivity.
  all: destruct (ok r); simpl; try reflexivity.
  all: destruct (resp_json r) as [e | data]; simpl; try reflexivity.
  all: destruct (answer_of data); reflexivity.
Qed.

(** C2: on either self-hosted client, when the upstream response to a
    [chat] or [askAi] call has a status outside 200..299, the call throws
    an [Error] whose message is the provider's name, [API error:], the
    decimal status code and the reason phrase; the message therefore
    contains both, and the call has sent one request only (no retry). *)
Theorem C2_non_2xx_throws_status_and_phrase
    (c : SelfHosted) (payload : AiChatRequestDto number)
    (ask : AiAskRequestDto number) (user : UserRef)
    (net : Network (number := number)) (resp : Response number) :
  answers_with net resp ->
  (status resp < 200 \/ 299 < status resp)%N ->
  let message := provider_name c ++ " API error: "
                   ++ string_of_N (status resp) ++ " " ++ statusText resp in
  settled (run net (chat c payload user)) = inl (Error message) /\
  settled (run net (askAi c ask user)) = inl (Error message) /\
  length (requests (run net (chat c payload user))) = 1 /\
  length (requests (run net (askAi c ask user))) = 1 /\
  contains message (string_of_N (status resp)) /\
  contains message (statusText resp).
Proof.
  intros Hnet Hstatus message.
  apply ok_false_iff in Hstatus.
  repeat split.
  1-4: destruct c as [c | c]; unfold run; simpl;
       rewrite Hnet; simpl; rewrite Hstatus; reflexivity.
  - exists (provider_name c ++ " API error: "), (" " ++ statusText resp).
    unfold message. now rewrite !append_assoc.
  - exists (provider_name c ++ " API error: "
              ++ string_of_N (status resp) ++ " "), EmptyString.
    unfold message. now rewrite !append_assoc, append_empty_r.
Qed.

Lemma ok_true_iff (r : Response number) :
  ok r = true <-> (200 <= status r /\ status r <= 299)%N.
Proof.
  unfold ok. rewrite andb_true_iff, !N.leb_le. reflexivity.
Qed.

(** What [askAi] does with a 2xx response whose body parses. *)
Lemma askAi_on_success
    (c : SelfHosted) (ask : AiAskRequestDto number) (user : UserRef)
    (net : Network (number := number)) (resp : Response number)
    (data : value number) :
  answers_with net resp ->
  ok resp = true ->
  resp_json resp = inr data ->
  settled (run net (askAi c ask user))
    = match answer_of data with
      | inl e => inl e
      | inr a => inr {| answer := a |}
      end.
Proof.
  intros Hnet Hok Hjson.
  destruct c as [c | c]; unfold run; simpl;
    rewrite Hnet; simpl; rewrite Hok, Hjson; simpl;
    destruct (answer_of data); reflexivity.
Qed.

(** [x?.name] reads the property when there is one to read. *)
Lemma optional_field_path (x : jsval number) (name : string) :
  optional_field x name
    = match x with Some v => get_field v name | None => None end.
Proof.
  destruct x as [v |]; [destruct v |]; reflexivity.
Qed.

(** With a [choices] that is neither missing nor [null], reading the
    answer does not throw, and the optional chain reads the same property
    path as [content_at]. *)
Lemma answer_of_with_choices (data choices : value number) :
  get_field data "choices" = Some choices ->
  choices <> VNull ->
  answer_of data = inr (js_or_else (content_at data) (VStr no_response)).
Proof.
  intros Hchoices Hnull.
  assert (Hdata : choices_of data = inr (Some choices)).
  { unfold choices_of. rewrite <- Hchoices. destruct data; try reflexivity.
    discriminate. }
  assert (Hfirst : first_of (Some choices) = inr (get_index0 choices)).
  { destruct choices; try reflexivity. congruence. }
  unfold answer_of, content_at.
  rewrite Hdata, Hfirst, Hchoices, !optional_field_path.
  destruct (get_index0 choices) as [first |]; [| reflexivity].
  destruct (get_field first "message"); reflexivity.
Qed.

(** C3, as the code has it: on either self-hosted client, for an [askAi]
    call answered with a 2xx response whose document has a [choices] that
    is neither missing nor [null], the answer is the placeholder
    ['No response generated'] when [choices[0].message.content] is missing
    and also when it is present but falsy (empty string, [null], [false],
    zero); otherwise the answer is that content. *)
Theorem C3_answer_is_content_or_placeholder
    (c : SelfHosted) (ask : AiAskRequestDto number) (user : UserRef)
    (net : Network (number := number)) (resp : Response number)
    (data choices : value number) :
  answers_with net resp ->
  (200 <= status resp /\ status resp <= 299)%N ->
  resp_json resp = inr data ->
  get_field data "choices" = Some choices ->
  choices <> VNull ->
  let result := settled (run net (askAi c ask user)) in
  (content_at data = None ->
     result = inr {| answer := VStr "No response generated" |}) /\
  (forall v, content_at data = Some v -> truthy v = false ->
     result = inr {| answer := VStr "No response generated" |}) /\
  (forall v, content_at data = Some v -> truthy v = true ->
     result = inr {| answer := v |}).
Proof.
  intros Hnet Hstatus Hjson Hchoices Hnull result.
  apply ok_true_iff in Hstatus.
  assert (Hresult : result
            = inr {| answer := js_or_else (content_at data) (VStr no_response) |}).
  { unfold result.
    rewrite (askAi_on_success c ask user net resp data Hnet Hstatus Hjson).
    now rewrite (answer_of_with_choices data choices Hchoices Hnull). }
  rewrite Hresult. repeat split.
  - intros ->. reflexivity.
  - intros v -> Hv. simpl. now rewrite Hv.
  - intros v -> Hv. simpl. now rewrite Hv.
Qed.

(** The requests of a call do not depend on the network or on the user. *)
Lemma chat_requests
    (c : SelfHosted) (payload : AiChatRequestDto number) (user : UserRef)
    (net : Network (number := number)) :
  requests (run net (chat c payload user))
    = requests (run (fun _ => inl (Rejection "offline"))
                    (chat c payload {| ref_id := EmptyString |})).
Proof.
  destruct c as [c | c]; unfold run; simpl.
  all: destruct (net _) as [e | r]; [reflexivity |].
  all: destruct (ok r); reflexivity.
Qed.

Lemma askAi_requests
    (c : SelfHosted) (ask : AiAskRequestDto number) (user : UserRef)
    (net : Network (number := number)) :
  requests (run net (askAi c ask user))
    = requests (run (fun _ => inl (Rejection "offline"))
                    (askAi c ask {| ref_id := EmptyString |})).
Proof.
  destruct c as [c | c]; unfold run; simpl.
  all: destruct (net _) as [e | r]; [reflexivity |].
  all: destruct (ok r); simpl; [| reflexivity].
  all: destruct (resp_json r) as [e | data]; simpl; [reflexivity |].
  all: destruct (answer_of data); reflexivity.
Qed.

(** [convertPayloadToMessages] always starts with the system message. *)
Lemma messages_start_with_system
    (c : SelfHosted) (payload : AiChatRequestDto number) :
  exists rest : list (Message number),
    chat_messages c payload
      = {| role := "system"; content := VStr system_prompt |} :: rest.
Proof.
  destruct c as [c | c]; simpl;
    [ unfold OpenRouterClient.convertPayloadToMessages
    | unfold OpenAIClient.convertPayloadToMessages ].
  all: destruct (chat_payload payload) as [p |];
         [destruct (truthy p && typeof_object p) |];
         eexists; reflexivity.
Qed.

(** C4: on either self-hosted client, the one request of a [chat] call and
    the one request of an [askAi] call carry the header [Authorization]
    with value [Bearer ] followed by the configured key, and a body that is
    the JSON text of an object holding the configured model under [model]
    and a non-empty array under [messages]. *)
Theorem C4_request_carries_key_model_messages
    (c : SelfHosted) (payload : AiChatRequestDto number)
    (ask : AiAskRequestDto number) (user : UserRef)
    (net : Network (number := number)) :
  (exists req, requests (run net (chat c payload user)) = [req] /\
               authorized_completion_request c req) /\
  (exists req, requests (run net (askAi c ask user)) = [req] /\
               authorized_completion_request c req).
Proof.
  rewrite chat_requests, askAi_requests.
  destruct (messages_start_with_system c payload) as [rest Hrest].
  destruct c as [c | c]; cbn [chat_messages] in Hrest.
  all: split; eexists.
  all: (split; [unfold run; cbn -[JSON_stringify body_object]; reflexivity |]).
  all: (split; [reflexivity |]); cbn [body].
  all: try rewrite Hrest.
  all: eexists; eexists; eexists; (split; [reflexivity |]).
  all: split; reflexivity.
Qed.

(** C5: for a given client (key and model fixed), two [chat] calls, or two
    [askAi] calls, with equal payloads send the same requests (URL, method,
    headers and body text), whoever the users are and whatever the network
    answers. *)
Theorem C5_request_determined_by_payload
    (c : SelfHosted) (p1 p2 : AiChatRequestDto number)
    (q1 q2 : AiAskRequestDto number) (u1 u2 : UserRef)
    (net1 net2 : Network (number := number)) :
  p1 = p2 -> q1 = q2 ->
  requests (run net1 (chat c p1 u1)) = requests (run net2 (chat c p2 u2)) /\
  requests (run net1 (askAi c q1 u1)) = requests (run net2 (askAi c q2 u2)).
Proof.
  intros <- <-. split.
  - now rewrite (chat_requests c p1 u1 net1), (chat_requests c p1 u2 net2).
  - now rewrite (askAi_requests c q1 u1 net1), (askAi_requests c q1 u2 net2).
Qed.

(** C9: on either self-hosted client, for every user,
    [generateAiCreditsCredentials] sends no request and returns the
    configured key unchanged with the base URL of the provider. *)
Theorem C9_credentials_return_configured_key
    (c : SelfHosted) (user : IUser) (net : Network (number := number)) :
  run net (generateAiCreditsCredentials c user)
    = ([], inr {| cred_apiKey := api_key c;
                  cred_url := match c with
                              | OpenRouter _ => "https://openrouter.ai/api/v1"
                              | OpenAI _ => "https://api.openai.com/v1"
                              end |}).
Proof.
  destruct c; reflexivity.
Qed.

(** C10: on either self-hosted client, for every payload, [applySuggestion]
    sends no request and returns the two identifiers of the payload with
    [applied: true]. *)
Theorem C10_applySuggestion_echoes
    (c : SelfHosted) (payload : AiApplySuggestionRequestDto) (user : UserRef)
    (net : Network (number := number)) :
  run net (applySuggestion c payload user)
    = ([], inr {| sessionId := apply_sessionId payload;
                  suggestionId := apply_suggestionId payload;
                  applied := true |}).
Proof.
  destruct c; reflexivity.
Qed.

End ClientProperties.

(** The test ['should handle API errors'] of the OpenRouter client, through
    C2. *)
Lemma C2_witness_unauthorized :
  settled (run (always unauthorized)
               (chat openrouter_test_client hello_payload
                     {| ref_id := "user123" |}))
    = inl (Error "OpenRouter API error: 401 Unauthorized").
Proof.
  exact (proj1 (C2_non_2xx_throws_status_and_phrase
                  openrouter_test_client hello_payload test_question
                  {| ref_id := "user123" |} (always unauthorized) unauthorized
                  (fun _ => eq_refl) (or_intror eq_refl))).
Defined.

(** The test ['should make an askAi request with correct parameters'],
    through C3. *)
Lemma C3_witness_test_response :
  settled (run (always (success (completion (VStr "This is a test response"))))
               (askAi openrouter_test_client test_question
                      {| ref_id := "user123" |}))
    = inr {| answer := VStr "This is a test response" |}.
Proof.
  refine (proj2 (proj2 (C3_answer_is_content_or_placeholder
            openrouter_test_client test_question {| ref_id := "user123" |}
            (always (success (completion (VStr "This is a test response"))))
            (success (completion (VStr "This is a test response")))
            (completion (VStr "This is a test response"))
            (VArr [VObj [("message",
                          VObj [("content", VStr "This is a test response")])]])
            (fun _ => eq_refl) _ eq_refl eq_refl _))
          (VStr "This is a test response") eq_refl eq_refl).
  - split; discriminate.
  - discriminate.
Defined.

(** C3 as stated fails on the code: a completion whose [content] is present
    but is the empty string is answered with the placeholder, not with that
    content. *)
Lemma C3_counterexample_empty_content :
  content_at (completion (VStr EmptyString)) = Some (VStr EmptyString) /\
  settled (run (always (success (completion (VStr EmptyString))))
               (askAi openai_test_client test_question
                      {| ref_id := "user123" |}))
    = inr {| answer := VStr "No response generated" |} /\
  settled (run (always (success (completion (VStr EmptyString))))
               (askAi openai_test_client test_question
                      {| ref_id := "user123" |}))
    <> inr {| answer := VStr EmptyString |}.
Proof.
  split; [reflexivity |]. split; [reflexivity | discriminate].
Qed.

(** The same for a [content] that is [null], as upstream sends with tool
    calls. *)
Example askAi_null_content :
  settled (run (always (success (completion VNull)))
               (askAi openai_test_client test_question
                      {| ref_id := "user123" |}))
    = inr {| answer := VStr "No response generated" |}.
Proof. reflexivity. Qed.

(** The test ['should handle missing response content']: an empty
    [choices] array. *)
Example askAi_empty_choices :
  settled (run (always (success (VObj [("choices", VArr [])])))
               (askAi openrouter_test_client test_question
                      {| ref_id := "user123" |}))
    = inr {| answer := VStr "No response generated" |}.
Proof. reflexivity. Qed.

(** A 2xx document without [choices] (an upstream error object, say):
    [data.choices[0]] throws before any default applies. *)
Example askAi_without_choices_throws :
  settled (run (always (success (VObj [("error", VStr "overloaded")])))
               (askAi openrouter_test_client test_question
                      {| ref_id := "user123" |}))
    = inl (TypeError "Cannot read properties of undefined (reading '0')").
Proof. reflexivity. Qed.

(** Two calls by different users, one answered and one not, through C5. *)
Lemma C5_witness_same_request :
  requests (run (always unauthorized)
                (chat openai_test_client hello_payload {| ref_id := "user123" |}))
    = requests (run (fun _ => inl (Rejection "offline"))
                    (chat openai_test_client hello_payload {| ref_id := "other" |})).
Proof.
  exact (proj1 (C5_request_determined_by_payload
                  openai_test_client hello_payload hello_payload
                  test_question test_question
                  {| ref_id := "user123" |} {| ref_id := "other" |}
                  (always unauthorized) (fun _ => inl (Rejection "offline"))
                  eq_refl eq_refl)).
Defined.

(** The request the OpenRouter test expects. *)
Example openrouter_chat_request :
  requests (run (always unauthorized)
                (chat openrouter_test_client hello_payload
                      {| ref_id := "user123" |}))
    = [ {| url := "https://openrouter.ai/api/v1/chat/completions";
           method := "POST";
           headers := [ ("Content-Type", "application/json");
                        ("Authorization", "Bearer test-api-key");
                        ("HTTP-Referer", "https://n8n.io");
                        ("X-Title", "n8n AI Assistant") ];
           body := JSON_stringify
                     (VObj [ ("model", VStr "test-model");
                             ("messages",
                              VArr [ VObj [("role", VStr "system");
                                           ("content", VStr system_prompt)];
                                     VObj [("role", VStr "user");
                                           ("content", VStr "Hello")] ]);
                             ("stream", VBool true) ]) |} ].
Proof. reflexivity. Qed.

(** [JSON.stringify] on strings that need escaping, on nesting and on
    numbers. *)
Example JSON_stringify_escapes :
  JSON_stringify
    (VObj [ ("q", VStr ("say " ++ dquote ++ "hi" ++ dquote ++ nl));
            ("path", VStr ("a" ++ backslash ++ "b"));
            ("bell", VStr (String (ascii_of_N 7) EmptyString));
            ("xs", VArr [VNum (-12)%Z; VNull; VBool false; VArr []; VObj []]) ])
    = "{" ++ dquote ++ "q" ++ dquote ++ ":"
          ++ dquote ++ "say " ++ backslash ++ dquote ++ "hi"
                    ++ backslash ++ dquote ++ backslash ++ "n" ++ dquote
      ++ "," ++ dquote ++ "path" ++ dquote ++ ":"
          ++ dquote ++ "a" ++ backslash ++ backslash ++ "b" ++ dquote
      ++ "," ++ dquote ++ "bell" ++ dquote ++ ":"
          ++ dquote ++ backslash ++ "u0007" ++ dquote
      ++ "," ++ dquote ++ "xs" ++ dquote ++ ":[-12,null,false,[],{}]}".
Proof. reflexivity. Qed.

(** The prompt [buildAskAiPrompt] makes of the payload of the test
    ['should handle missing response content']. *)
Example test_question_prompt :
  OpenRouterClient.buildAskAiPrompt test_question
    = "Question: Test question" ++ nl ++ nl
      ++ "Context:" ++ nl
      ++ "Available nodes and their schemas:" ++ nl
      ++ "Input schema for Test: "
      ++ JSON_stringify (VObj [("type", VStr "object"); ("path", VStr "/test");
                               ("value", VStr "test")]) ++ nl
      ++ nl ++ "For node: Test Node" ++ nl ++ nl
      ++ "Please provide a helpful answer for this n8n workflow automation question.".
Proof. reflexivity. Qed.

(* ===================================================================== *)
(** ** Properties of the provider-selection service *)
(* ===================================================================== *)

Section ServiceProperties.
Context {number : Type} `{JsNumber number} `{External number}.

Lemma nonempty_true_iff (s : string) : nonempty s = true <-> s <> EmptyString.
Proof.
  unfold nonempty. destruct (String.eqb_spec s EmptyString); simpl; split;
    congruence.
Qed.

Lemma nonempty_false_iff (s : string) : nonempty s = false <-> s = EmptyString.
Proof.
  unfold nonempty. destruct (String.eqb_spec s EmptyString); simpl; split;
    congruence.
Qed.

Lemma init_cases (lic : License) (cfg : GlobalConfig) (self : AiService.t) :
  AiService.init (AiService.constructor lic cfg) = (self, inr tt) ->
  init_result lic cfg self.
Proof.
  unfold AiService.init. cbn [AiService.constructor AiService.licenseService
                              AiService.globalConfig].
  destruct (isAiAssistantEnabled lic) eqn:Hlic.
  - destruct (loadCertStr lic) as [e | cert] eqn:Hcert; [discriminate |].
    intros [= <-]. now apply init_licensed.
  - destruct (selfHostedEnabled (aiAssistant cfg)) eqn:Hself; cbn [andb].
    + destruct (nonempty (openRouterApiKey (aiAssistant cfg))) eqn:Hor;
        cbn [orb].
      * intros [= <-]. apply init_self_hosted; try assumption.
        left. split; [now apply nonempty_true_iff | reflexivity].
      * destruct (nonempty (openAiApiKey (aiAssistant cfg))) eqn:Hoa.
        -- intros [= <-]. apply init_self_hosted; try assumption.
           right. split; [now apply nonempty_false_iff |].
           split; [now apply nonempty_true_iff | reflexivity].
        -- intros [= <-]. apply init_nothing; [assumption |].
           right. split; now apply nonempty_false_iff.
    + intros [= <-]. apply init_nothing; [assumption | now left].
Qed.

(** On a fresh service the guard of every operation runs [init]. *)
Lemma ensure_init_fresh (lic : License) (cfg : GlobalConfig) :
  AiService.ensure_init (AiService.constructor lic cfg)
    = AiService.init (AiService.constructor lic cfg).
Proof. reflexivity. Qed.

(** After a completed [init] the guard changes nothing: either a client is
    there and [init] is skipped, or [init] runs again to the same end. *)
Lemma ensure_init_after_init
    (lic : License) (cfg : GlobalConfig) (self : AiService.t) :
  AiService.init (AiService.constructor lic cfg) = (self, inr tt) ->
  AiService.ensure_init self = (self, inr tt).
Proof.
  intros Hinit.
  destruct (init_cases lic cfg self Hinit) as [cert _ _ | c _ _ _ | _ _];
    try reflexivity.
  rewrite ensure_init_fresh. exact Hinit.
Qed.

(** C1, as the code has it: when [init] completes on a fresh service, it
    has selected at most one client.  The licensed client is selected
    exactly when the license reports the assistant enabled.  Otherwise,
    with self-hosted mode on, the OpenRouter client is built from the
    OpenRouter key and model whenever that key is non-empty, and the OpenAI
    client from the OpenAI key and model when the OpenRouter key is empty
    and the OpenAI key is not; the OpenAI client is selected in no other
    case.  Without a license, and with self-hosted mode off or both keys
    empty, no client is selected. *)
Theorem C1_init_selects_at_most_one_client
    (lic : License) (cfg : GlobalConfig) (self : AiService.t) :
  AiService.init (AiService.constructor lic cfg) = (self, inr tt) ->
  let a := aiAssistant cfg in
  selected self <= 1 /\
  is_some (AiService.client self) = isAiAssistantEnabled lic /\
  AiService.isUsingLicensedClient self = isAiAssistantEnabled lic /\
  (isAiAssistantEnabled lic = true ->
     AiService.selfHostedClient self = None /\ selected self = 1) /\
  (isAiAssistantEnabled lic = false -> selfHostedEnabled a = true ->
   openRouterApiKey a <> EmptyString ->
     AiService.selfHostedClient self
       = Some (OpenRouter {| OpenRouterClient.apiKey := openRouterApiKey a;
                             OpenRouterClient.model := openRouterModel a |})
     /\ selected self = 1) /\
  (isAiAssistantEnabled lic = false -> selfHostedEnabled a = true ->
   openRouterApiKey a = EmptyString -> openAiApiKey a <> EmptyString ->
     AiService.selfHostedClient self
       = Some (OpenAI {| OpenAIClient.apiKey := openAiApiKey a;
                         OpenAIClient.model := openAiModel a |})
     /\ selected self = 1) /\
  (forall c, AiService.selfHostedClient self = Some (OpenAI c) ->
     isAiAssistantEnabled lic = false /\ selfHostedEnabled a = true /\
     openRouterApiKey a = EmptyString /\ openAiApiKey a <> EmptyString) /\
  (isAiAssistantEnabled lic = false ->
   selfHostedEnabled a = false \/
   openRouterApiKey a = EmptyString /\ openAiApiKey a = EmptyString ->
     selected self = 0).
Proof.
  intros Hinit a. subst a.
  destruct (init_cases lic cfg self Hinit)
    as [cert Hlic Hcert | c Hlic Hself Hc | Hlic Hnone];
    unfold selected; cbn [AiService.client AiService.selfHostedClient
                          AiService.isUsingLicensedClient AiService.constructor
                          is_some Nat.add].
  - rewrite Hlic. repeat split; try congruence; auto.
  - rewrite Hlic, Hself.
    destruct Hc as [[Hor ->] | (Hor & Hoa & ->)].
    + repeat split; try congruence; auto.
      intros _ [Hfalse | [Hempty _]]; congruence.
    + repeat split; try congruence; auto.
      intros _ [Hfalse | [_ Hempty]]; congruence.
  - rewrite Hlic.
    destruct Hnone as [Hself | [Hor Hoa]];
      repeat split; try congruence; auto.
Qed.

(** C6, as the code has it: on a service that [init] has completed on, each
    of [chat], [applySuggestion], [askAi] and [createFreeAiCredits] is the
    call of the corresponding method ([generateAiCreditsCredentials] for the
    last) with the payload unchanged and [{ id: user.id }] (the user itself
    for the credentials): of the licensed client when the licensed client
    was selected, of the self-hosted client when a self-hosted client was
    selected.  When no client was selected, each of them throws the
    assertion error ['Self-hosted assistant client not setup'] and calls no
    client.  A first call on the fresh service, which runs [init] itself,
    does the same. *)
Theorem C6_operations_forward_to_selected_client
    (lic : License) (cfg : GlobalConfig) (self : AiService.t)
    (pc : AiChatRequestDto number) (pa : AiApplySuggestionRequestDto)
    (pq : AiAskRequestDto number) (user : IUser) :
  AiService.init (AiService.constructor lic cfg) = (self, inr tt) ->
  (AiService.isUsingLicensedClient self = true ->
     exists c, AiService.client self = Some c /\
               forwards_to_licensed self c pc pa pq user) /\
  (AiService.isUsingLicensedClient self = false ->
   forall c, AiService.selfHostedClient self = Some c ->
     forwards_to_self_hosted self c pc pa pq user) /\
  (AiService.isUsingLicensedClient self = false ->
   AiService.selfHostedClient self = None ->
     all_throw self (AssertionError "Self-hosted assistant client not setup")
               pc pa pq user) /\
  same_calls (AiService.constructor lic cfg) self pc pa pq user.
Proof.
  intros Hinit.
  pose proof (ensure_init_after_init lic cfg self Hinit) as Hguard.
  assert (Hlazy : same_calls (AiService.constructor lic cfg) self pc pa pq user).
  { unfold same_calls, AiService.chat, AiService.applySuggestion,
      AiService.askAi, AiService.createFreeAiCredits.
    rewrite ensure_init_fresh, Hinit, Hguard. repeat split; reflexivity. }
  destruct (init_cases lic cfg self Hinit)
    as [cert Hlic Hcert | c Hlic Hself Hc | Hlic Hnone];
    (split; [| split; [| split; [| exact Hlazy]]]); try discriminate.
  - intros _. eexists. split; [reflexivity |].
    repeat split; reflexivity.
  - intros _ c' [= <-]. repeat split; reflexivity.
  - intros _ _.
    unfold all_throw, AiService.chat, AiService.applySuggestion,
      AiService.askAi, AiService.createFreeAiCredits.
    rewrite Hguard. repeat split; reflexivity.
Qed.

(** What the caller of the service observes when a self-hosted client was
    selected: the requests and the outcome of that client's [chat]. *)
Lemma service_chat_runs_self_hosted_chat
    (lic : License) (cfg : GlobalConfig) (self : AiService.t)
    (c : SelfHosted) (pc : AiChatRequestDto number) (user : IUser)
    (net : Network (number := number)) :
  AiService.init (AiService.constructor lic cfg) = (self, inr tt) ->
  AiService.isUsingLicensedClient self = false ->
  AiService.selfHostedClient self = Some c ->
  run net (snd (AiService.chat self pc user))
    = (requests (run net (chat c pc {| ref_id := id user |})),
       match settled (run net (chat c pc {| ref_id := id user |})) with
       | inl e => inl e
       | inr a => inr (inr a)
       end).
Proof.
  intros Hinit Hflag Hclient.
  unfold AiService.chat.
  rewrite (ensure_init_after_init lic cfg self Hinit). cbn [snd].
  rewrite Hflag, Hclient. cbn [assert bind].
  apply (run_from_fmap inr net).
Qed.

(** C8: once a client is selected, [chat], [askAi], [applySuggestion] and
    [createFreeAiCredits] leave the service as it was (the licensed client,
    the self-hosted client and the flag included), and what they do does
    not depend on the license or the configuration any more. *)
Theorem C8_operations_leave_state_unchanged
    (self : AiService.t)
    (pc : AiChatRequestDto number) (pa : AiApplySuggestionRequestDto)
    (pq : AiAskRequestDto number) (user : IUser) :
  AiService.client self <> None \/ AiService.selfHostedClient self <> None ->
  (fst (AiService.chat self pc user) = self /\
   fst (AiService.askAi self pq user) = self /\
   fst (AiService.applySuggestion self pa user) = self /\
   fst (AiService.createFreeAiCredits self user) = self) /\
  (forall (lic : License) (cfg : GlobalConfig),
     AiService.chat (with_services self lic cfg) pc user
       = (with_services self lic cfg, snd (AiService.chat self pc user)) /\
     AiService.askAi (with_services self lic cfg) pq user
       = (with_services self lic cfg, snd (AiService.askAi self pq user)) /\
     AiService.applySuggestion (with_services self lic cfg) pa user
       = (with_services self lic cfg,
          snd (AiService.applySuggestion self pa user)) /\
     AiService.createFreeAiCredits (with_services self lic cfg) user
       = (with_services self lic cfg,
          snd (AiService.createFreeAiCredits self user))).
Proof.
  intros Hselected.
  assert (Hguard : forall s : AiService.t,
            AiService.client s = AiService.client self ->
            AiService.selfHostedClient s = AiService.selfHostedClient self ->
            AiService.ensure_init s = (s, inr tt)).
  { intros s Hc Hs. unfold AiService.ensure_init. rewrite Hc, Hs.
    destruct (AiService.client self), (AiService.selfHostedClient self);
      try reflexivity.
    destruct Hselected; congruence. }
  split.
  - unfold AiService.chat, AiService.applySuggestion, AiService.askAi,
      AiService.createFreeAiCredits.
    rewrite (Hguard self eq_refl eq_refl). repeat split; reflexivity.
  - intros lic cfg.
    unfold AiService.chat, AiService.applySuggestion, AiService.askAi,
      AiService.createFreeAiCredits.
    rewrite (Hguard self eq_refl eq_refl).
    rewrite (Hguard (with_services self lic cfg) eq_refl eq_refl).
    repeat split; reflexivity.
Qed.

End ServiceProperties.

(** No license, self-hosted mode on, both keys set: C1 gives the
    OpenRouter client. *)
Lemma C1_witness_openrouter_first :
  AiService.selfHostedClient
    (fst (AiService.init (AiService.constructor no_license openrouter_config)))
    = Some (OpenRouter
              {| OpenRouterClient.apiKey := "sk-or-1";
                 OpenRouterClient.model :=
                   "meta-llama/llama-3.1-8b-instruct:free" |}).
Proof.
  refine (proj1 (proj1 (proj2 (proj2 (proj2 (proj2
            (C1_init_selects_at_most_one_client
               no_license openrouter_config _ eq_refl)))))
            eq_refl eq_refl _)).
  discriminate.
Defined.

(** C1 as stated fails on the code: without a license and with the default
    configuration, [init] completes and has selected no client. *)
Lemma C1_counterexample_nothing_configured :
  AiService.init (AiService.constructor no_license default_config)
    = (AiService.constructor no_license default_config, inr tt) /\
  selected (fst (AiService.init
                   (AiService.constructor no_license default_config))) = 0 /\
  selected (fst (AiService.init
                   (AiService.constructor no_license default_config))) <> 1.
Proof.
  split; [reflexivity |]. split; [reflexivity | discriminate].
Qed.

(** With the OpenRouter client selected, C6 makes the service's [chat] the
    client's [chat]. *)
Lemma C6_witness_forwards_to_openrouter :
  forwards_to_self_hosted
    (fst (AiService.init (AiService.constructor no_license openrouter_config)))
    (OpenRouter
       {| OpenRouterClient.apiKey := "sk-or-1";
          OpenRouterClient.model := "meta-llama/llama-3.1-8b-instruct:free" |})
    hello_payload apply_payload test_question mockUser.
Proof.
  exact (proj1 (proj2 (C6_operations_forward_to_selected_client
                         no_license openrouter_config _
                         hello_payload apply_payload test_question mockUser
                         eq_refl))
               eq_refl _ eq_refl).
Defined.

(** C6 as stated fails on the code: without a license and with the default
    configuration the licensed client is not selected, yet no operation is
    forwarded to a self-hosted client; [chat] throws instead. *)
Lemma C6_counterexample_no_client :
  AiService.isUsingLicensedClient
    (fst (AiService.init (AiService.constructor no_license default_config)))
    = false /\
  snd (AiService.chat
         (fst (AiService.init (AiService.constructor no_license default_config)))
         hello_payload mockUser)
    = Throw (AssertionError "Self-hosted assistant client not setup") /\
  forall c : SelfHosted,
    ~ forwards_to_self_hosted
        (fst (AiService.init (AiService.constructor no_license default_config)))
        c hello_payload apply_payload test_question mockUser.
Proof.
  split; [reflexivity |]. split; [reflexivity |].
  intros c [Hchat _]. destruct c; discriminate Hchat.
Qed.

(** With the licensed client selected, C8 keeps the service as it is across
    a [chat] call. *)
Lemma C8_witness_licensed :
  fst (AiService.chat
         (fst (AiService.init
                 (AiService.constructor enterprise_license default_config)))
         hello_payload mockUser)
    = fst (AiService.init
             (AiService.constructor enterprise_license default_config)).
Proof.
  refine (proj1 (proj1 (C8_operations_leave_state_unchanged
            (fst (AiService.init
                    (AiService.constructor enterprise_license default_config)))
            hello_payload apply_payload test_question mockUser _))).
  left. discriminate.
Defined.

(** Without any client the guard runs [init] on every call: here the
    license is granted between two calls and the second call changes the
    service. *)
Example unselected_service_initialises_later :
  let fresh := AiService.constructor no_license default_config in
  let after_first := fst (AiService.chat fresh hello_payload mockUser) in
  let renewed := with_services after_first enterprise_license default_config in
  after_first = fresh /\
  AiService.isUsingLicensedClient
    (fst (AiService.chat renewed hello_payload mockUser)) = true.
Proof. split; reflexivity. Qed.

(* ===================================================================== *)
(** ** Further properties of the two self-hosted clients *)
(* ===================================================================== *)

Section ClientCoverage.
Context {number : Type} `{JsNumber number}.

(** The request of a [chat] call, written out. *)
Lemma chat_sends
    (c : SelfHosted) (payload : AiChatRequestDto number) (user : UserRef)
    (net : Network (number := number)) :
  requests (run net (chat c payload user))
    = [ {| url := base_url c ++ "/chat/completions";
           method := "POST";
           headers := match c with
                      | OpenRouter c => OpenRouterClient.request_headers c
                      | OpenAI c => OpenAIClient.request_headers c
                      end;
           body := JSON_stringify
                     (body_object (model_id c) (chat_messages c payload) true)
        |} ].
Proof.
  rewrite chat_requests. destruct c; reflexivity.
Qed.

(** The request of an [askAi] call, written out. *)
Lemma askAi_sends
    (c : SelfHosted) (ask : AiAskRequestDto number) (user : UserRef)
    (net : Network (number := number)) :
  requests (run net (askAi c ask user))
    = [ {| url := base_url c ++ "/chat/completions";
           method := "POST";
           headers := match c with
                      | OpenRouter c => OpenRouterClient.request_headers c
                      | OpenAI c => OpenAIClient.request_headers c
                      end;
           body := JSON_stringify
                     (body_object (model_id c)
                        [ system_message;
                          user_message (VStr (ask_prompt c ask)) ]
                        false)
        |} ].
Proof.
  rewrite askAi_requests. destruct c; reflexivity.
Qed.

(** X1: on either client, a [chat] call answered with a status in 200..299
    resolves to [{ body: response.body }], the upstream stream handed over
    as it is (absent when upstream sent none), after one request; whether
    the body is JSON plays no part. *)
Theorem chat_success_hands_over_stream
    (c : SelfHosted) (payload : AiChatRequestDto number) (user : UserRef)
    (net : Network (number := number)) (resp : Response number) :
  answers_with net resp ->
  (200 <= status resp /\ status resp <= 299)%N ->
  settled (run net (chat c payload user))
    = inr {| response_body := resp_body resp |} /\
  length (requests (run net (chat c payload user))) = 1.
Proof.
  intros Hnet Hstatus. apply ok_true_iff in Hstatus.
  destruct c as [c | c]; unfold run; simpl;
    rewrite Hnet; simpl; rewrite Hstatus; split; reflexivity.
Qed.

(** X2: on either client, when [fetch] itself rejects (the network fails),
    [chat] and [askAi] reject with that very reason, after the one request
    and without another attempt. *)
Theorem fetch_rejection_propagates
    (c : SelfHosted) (payload : AiChatRequestDto number)
    (ask : AiAskRequestDto number) (user : UserRef)
    (net : Network (number := number)) (e : exn) :
  rejects_with net e ->
  settled (run net (chat c payload user)) = inl e /\
  settled (run net (askAi c ask user)) = inl e /\
  length (requests (run net (chat c payload user))) = 1 /\
  length (requests (run net (askAi c ask user))) = 1.
Proof.
  intros Hnet.
  destruct c as [c | c]; unfold run; simpl; rewrite !Hnet;
    repeat split; reflexivity.
Qed.

(** X3: on either client, an [askAi] call answered with a status in
    200..299 and a body that is not JSON rejects with the rejection of
    [response.json()]; no placeholder is substituted. *)
Theorem askAi_unparsable_body_rejects
    (c : SelfHosted) (ask : AiAskRequestDto number) (user : UserRef)
    (net : Network (number := number)) (resp : Response number) (e : exn) :
  answers_with net resp ->
  (200 <= status resp /\ status resp <= 299)%N ->
  resp_json resp = inl e ->
  settled (run net (askAi c ask user)) = inl e.
Proof.
  intros Hnet Hstatus Hjson. apply ok_true_iff in Hstatus.
  destruct c as [c | c]; unfold run; simpl;
    rewrite Hnet; simpl; rewrite Hstatus, Hjson; reflexivity.
Qed.

(** Reading the answer throws exactly when [choices] is missing or
    [null]; a [null] document has no [choices]. *)
Lemma answer_of_throws_iff (data : value number) :
  (exists message, answer_of data = inl (TypeError message)) <->
  (get_field data "choices" = None \/ get_field data "choices" = Some VNull).
Proof.
  split.
  - intros [message Hthrow].
    destruct (get_field data "choices") as [choices |] eqn:Hchoices;
      [| now left].
    destruct choices; try (right; reflexivity).
    all: exfalso.
    all: erewrite answer_of_with_choices in Hthrow by (eauto; discriminate).
    all: discriminate.
  - intros [Hnone | Hnull]; unfold answer_of, choices_of.
    + destruct data; simpl in *; try rewrite Hnone; simpl; eauto.
    + destruct data; simpl in *; try discriminate. rewrite Hnull. simpl. eauto.
Qed.

(** X4: on either client, an [askAi] call answered with a status in
    200..299 and a parsed document throws a [TypeError] exactly when the
    document has no [choices] property (a [null] document, an error
    object, any non-object) or a [null] one; the placeholder does not cover
    these documents. *)
Theorem askAi_throws_TypeError_iff_no_choices
    (c : SelfHosted) (ask : AiAskRequestDto number) (user : UserRef)
    (net : Network (number := number)) (resp : Response number)
    (data : value number) :
  answers_with net resp ->
  (200 <= status resp /\ status resp <= 299)%N ->
  resp_json resp = inr data ->
  ((exists message,
      settled (run net (askAi c ask user)) = inl (TypeError message)) <->
   (get_field data "choices" = None \/
    get_field data "choices" = Some VNull)).
Proof.
  intros Hnet Hstatus Hjson. apply ok_true_iff in Hstatus.
  rewrite (askAi_on_success c ask user net resp data Hnet Hstatus Hjson).
  rewrite <- answer_of_throws_iff.
  destruct (answer_of data) as [e | a]; split; intros [message Hm];
    exists message; congruence.
Qed.

Lemma js_or_else_truthy (a : jsval number) (b : value number) :
  truthy b = true -> truthy (js_or_else a b) = true.
Proof.
  intros Hb. destruct a as [v |]; simpl; [| exact Hb].
  destruct (truthy v) eqn:Hv; assumption.
Qed.

Lemma answer_of_truthy (data a : value number) :
  answer_of data = inr a -> truthy a = true.
Proof.
  unfold answer_of.
  destruct (choices_of data) as [e | choices]; [discriminate |].
  destruct (first_of choices) as [e | first]; [discriminate |].
  intros [= <-]. now apply js_or_else_truthy.
Qed.

(** X5: on either client, whatever the network does, an [askAi] call that
    resolves gives a truthy answer: never the empty string, [null],
    [false] or zero. *)
Theorem askAi_answer_is_never_empty
    (c : SelfHosted) (ask : AiAskRequestDto number) (user : UserRef)
    (net : Network (number := number)) (a : value number) :
  settled (run net (askAi c ask user)) = inr {| answer := a |} ->
  truthy a = true /\ a <> VStr EmptyString /\ a <> VNull.
Proof.
  intros Hresolved.
  assert (Ha : truthy a = true).
  { destruct c as [c | c]; unfold run in Hresolved; simpl in Hresolved.
    all: destruct (net _) as [e | r]; [discriminate |].
    all: simpl in Hresolved; destruct (ok r); simpl in Hresolved;
           [| discriminate].
    all: destruct (resp_json r) as [e | data]; simpl in Hresolved;
           [discriminate |].
    all: destruct (answer_of data) as [e | a'] eqn:Ha'; simpl in Hresolved;
           [discriminate |].
    all: injection Hresolved as <-; exact (answer_of_truthy data a' Ha'). }
  split; [exact Ha |].
  split; intros ->; discriminate Ha.
Qed.

(** X6: on either client, the request of a [chat] call depends on
    [payload.payload] only: the session identifier and the user are not
    sent upstream and change nothing. *)
Theorem chat_request_ignores_session_and_user
    (c : SelfHosted) (p1 p2 : AiChatRequestDto number) (u1 u2 : UserRef)
    (net1 net2 : Network (number := number)) :
  chat_payload p1 = chat_payload p2 ->
  requests (run net1 (chat c p1 u1)) = requests (run net2 (chat c p2 u2)).
Proof.
  intros Hpayload. rewrite !chat_sends.
  assert (Hm : chat_messages c p1 = chat_messages c p2).
  { destruct c; simpl;
      [ unfold OpenRouterClient.convertPayloadToMessages
      | unfold OpenAIClient.convertPayloadToMessages ];
      now rewrite Hpayload. }
  now rewrite Hm.
Qed.

(** The payload passes the guard of [convertPayloadToMessages] exactly when
    it is an array or an object. *)
Lemma guard_is_object_like (p : value number) :
  truthy p && typeof_object p = is_object_like p.
Proof.
  destruct p; simpl; try reflexivity; apply andb_false_r.
Qed.

Lemma stringify_object_like_truthy (p : value number) :
  is_object_like p = true -> truthy (VStr (JSON_stringify p)) = true.
Proof.
  destruct p; try discriminate; reflexivity.
Qed.

(** [convertPayloadToMessages] of either class, with the guard decided. *)
Lemma chat_messages_cases (c : SelfHosted) (payload : AiChatRequestDto number) :
  chat_messages c payload
    = match chat_payload payload with
      | Some p =>
          if is_object_like p then
            [ system_message;
              user_message
                (js_or_else
                   (js_or (get_field p "message") (get_field p "question"))
                   (VStr (JSON_stringify p))) ]
          else [ system_message ]
      | None => [ system_message ]
      end.
Proof.
  destruct c; simpl;
    [ unfold OpenRouterClient.convertPayloadToMessages
    | unfold OpenAIClient.convertPayloadToMessages ].
  all: destruct (chat_payload payload) as [p |]; [| reflexivity].
  all: rewrite guard_is_object_like.
  all: destruct (is_object_like p); reflexivity.
Qed.

(** X7: [convertPayloadToMessages] of either class gives the system message
    alone when [payload.payload] is missing, [null] or a primitive, and the
    system message followed by exactly one user message when it is an
    array or an object; the content of that user message is truthy, so
    never empty. *)
Theorem messages_are_system_then_at_most_one_user
    (c : SelfHosted) (payload : AiChatRequestDto number) :
  (chat_payload payload = None -> chat_messages c payload = [system_message]) /\
  (forall p, chat_payload payload = Some p -> is_object_like p = false ->
     chat_messages c payload = [system_message]) /\
  (forall p, chat_payload payload = Some p -> is_object_like p = true ->
     exists content,
       chat_messages c payload = [system_message; user_message content] /\
       truthy content = true).
Proof.
  rewrite chat_messages_cases. repeat split.
  - intros ->. reflexivity.
  - intros p -> ->. reflexivity.
  - intros p -> Hp. rewrite Hp. eexists. split; [reflexivity |].
    apply js_or_else_truthy. now apply stringify_object_like_truthy.
Qed.

(** X8: the user message of [convertPayloadToMessages], for a payload that
    is an array or an object: its [message] property when that is truthy;
    else its [question] property when that is truthy; else the JSON text of
    the whole payload.  A [message] that is present but empty is passed
    over like a missing one. *)
Theorem user_message_prefers_message_then_question
    (c : SelfHosted) (payload : AiChatRequestDto number) (p : value number) :
  chat_payload payload = Some p ->
  is_object_like p = true ->
  (forall m, get_field p "message" = Some m -> truthy m = true ->
     chat_messages c payload = [system_message; user_message m]) /\
  (forall q, truthy_opt (get_field p "message") = false ->
     get_field p "question" = Some q -> truthy q = true ->
     chat_messages c payload = [system_message; user_message q]) /\
  (truthy_opt (get_field p "message") = false ->
   truthy_opt (get_field p "question") = false ->
     chat_messages c payload
       = [system_message; user_message (VStr (JSON_stringify p))]).
Proof.
  intros Hpayload Hp. rewrite chat_messages_cases, Hpayload, Hp.
  repeat split.
  - intros m Hm Htruthy. unfold js_or. rewrite Hm. cbn [truthy_opt].
    rewrite Htruthy. cbn [js_or_else]. now rewrite Htruthy.
  - intros q Hm Hq Htruthy. unfold js_or. rewrite Hm, Hq.
    cbn [js_or_else]. now rewrite Htruthy.
  - intros Hm Hq. unfold js_or. rewrite Hm.
    destruct (get_field p "question") as [q |]; [| reflexivity].
    cbn [truthy_opt] in Hq. cbn [js_or_else]. now rewrite Hq.
Qed.

(** *** The prompt of [askAi] *)

Lemma concat_cons (x : string) (xs : list string) :
  String.concat EmptyString (x :: xs) = x ++ String.concat EmptyString xs.
Proof.
  destruct xs as [| y ys]; simpl; [now rewrite append_empty_r | reflexivity].
Qed.

(** The accumulating loop over [payload.context.schema] appends the lines
    of the nodes, in order. *)
Lemma loop_appends_node_lines (nodes : list (NodeSchema number)) :
  forall prompt : string,
    fold_left
      (fun prompt node =>
         prompt ++ "- " ++ nodeName node ++ ": "
                ++ JSON_stringify (schema node) ++ nl)
      nodes prompt
    = prompt ++ String.concat EmptyString (map node_line nodes).
Proof.
  induction nodes as [| node nodes IH]; intros prompt.
  - simpl. now rewrite append_empty_r.
  - cbn [fold_left map]. rewrite IH, concat_cons, append_assoc. reflexivity.
Qed.



Lemma buildAskAiPrompt_as_blocks
    (c : SelfHosted) (payload : AiAskRequestDto number) :
  ask_prompt c payload
    = ("Question: " ++ question payload ++ nl ++ nl)
      ++ context_block (context payload)
      ++ (nl ++ "For node: " ++ forNode payload ++ nl ++ nl ++ prompt_trailer).
Proof.
  destruct c; simpl;
    [ unfold OpenRouterClient.buildAskAiPrompt
    | unfold OpenAIClient.buildAskAiPrompt ].
  all: unfold context_block, schema_block, input_block, prompt_trailer.
  all: destruct (context payload) as [ctx |];
         [ destruct (ctx_schema ctx) as [nodes |];
           [ rewrite loop_appends_node_lines |];
           destruct (ctx_inputSchema ctx) as [input |] |].
  all: cbv zeta; rewrite ?append_assoc, ?append_empty_r; cbn [append];
         rewrite ?append_assoc; reflexivity.
Qed.

(** X9: the prompt [buildAskAiPrompt] accumulates, in either class, is the
    question line and a blank line, then the context block (['Context:'],
    the header and one line per node of [context.schema] in order, the
    input schema line; each part only when its field is there), then a
    blank line, the node name and the closing sentence. *)
Theorem prompt_is_question_context_node_trailer
    (c : SelfHosted) (payload : AiAskRequestDto number) :
  ask_prompt c payload
    = ("Question: " ++ question payload ++ nl ++ nl)
      ++ context_block (context payload)
      ++ (nl ++ "For node: " ++ forNode payload ++ nl ++ nl ++ prompt_trailer).
Proof.
  exact (buildAskAiPrompt_as_blocks c payload).
Qed.


(** X11: without a context the prompt is the question, the node name and
    the closing sentence and nothing else; with a context whose [schema]
    is the empty array the header line is still written, with no node
    under it. *)
Theorem prompt_without_context_or_nodes
    (c : SelfHosted) (payload : AiAskRequestDto number) :
  (context payload = None ->
     ask_prompt c payload
       = "Question: " ++ question payload ++ nl ++ nl ++ nl
           ++ "For node: " ++ forNode payload ++ nl ++ nl ++ prompt_trailer) /\
  (forall ctx, context payload = Some ctx ->
     ctx_schema ctx = Some [] -> ctx_inputSchema ctx = None ->
     ask_prompt c payload
       = "Question: " ++ question payload ++ nl ++ nl
           ++ "Context:" ++ nl ++ "Available nodes and their schemas:" ++ nl
           ++ nl ++ "For node: " ++ forNode payload ++ nl ++ nl
           ++ prompt_trailer).
Proof.
  rewrite buildAskAiPrompt_as_blocks. split.
  - intros ->. cbn [context_block]. now rewrite !append_assoc.
  - intros ctx -> Hschema Hinput.
    unfold context_block, schema_block, input_block.
    rewrite Hschema, Hinput. cbn [map String.concat].
    now rewrite !append_assoc, ?append_empty_r.
Qed.

(** X12: on either client, the request of an [askAi] call does not depend
    on [context.pushRef], [context.ndvPushRef] or the user: two payloads
    with the same question, node name, [context.schema] and
    [context.inputSchema] send the same request. *)
Theorem askAi_request_ignores_push_refs_and_user
    (c : SelfHosted) (q1 q2 : AiAskRequestDto number) (u1 u2 : UserRef)
    (net1 net2 : Network (number := number)) :
  question q1 = question q2 ->
  forNode q1 = forNode q2 ->
  same_prompt_context (context q1) (context q2) ->
  requests (run net1 (askAi c q1 u1)) = requests (run net2 (askAi c q2 u2)).
Proof.
  intros Hq Hnode Hctx. rewrite !askAi_sends.
  assert (Hprompt : ask_prompt c q1 = ask_prompt c q2).
  { rewrite !buildAskAiPrompt_as_blocks, Hq, Hnode.
    destruct (context q1) as [x |], (context q2) as [y |];
      try contradiction; [| reflexivity].
    destruct Hctx as [Hschema Hinput].
    unfold context_block. now rewrite Hschema, Hinput. }
  now rewrite Hprompt.
Qed.

(** *** The two providers side by side *)

(** X13: for the same key and model, the OpenRouter client and the OpenAI
    client send the same method, the same body and the same
    [Content-Type] and [Authorization] headers, for [chat] and for
    [askAi]; the requests differ in their URL. *)
Theorem providers_send_same_body_and_credentials
    (apiKey model : string) (payload : AiChatRequestDto number)
    (ask : AiAskRequestDto number) (user : UserRef)
    (net : Network (number := number)) :
  let openrouter :=
    OpenRouter {| OpenRouterClient.apiKey := apiKey;
                  OpenRouterClient.model := model |} in
  let openai :=
    OpenAI {| OpenAIClient.apiKey := apiKey; OpenAIClient.model := model |} in
  (exists a b,
     requests (run net (chat openrouter payload user)) = [a] /\
     requests (run net (chat openai payload user)) = [b] /\
     same_completion_request a b /\ url a <> url b) /\
  (exists a b,
     requests (run net (askAi openrouter ask user)) = [a] /\
     requests (run net (askAi openai ask user)) = [b] /\
     same_completion_request a b /\ url a <> url b).
Proof.
  intros openrouter openai. subst openrouter openai.
  rewrite !chat_sends, !askAi_sends.
  split; eexists; eexists; (split; [reflexivity |]);
    (split; [reflexivity |]); (split; [| discriminate]);
    repeat split; reflexivity.
Qed.

(** X14: on either client, what [generateAiCreditsCredentials] hands out
    is what the client's own requests use: [chat] and [askAi] post to the
    returned URL followed by [/chat/completions], as JSON, with the
    returned key as bearer token. *)
Theorem credentials_are_those_of_the_requests
    (c : SelfHosted) (payload : AiChatRequestDto number)
    (ask : AiAskRequestDto number) (user : UserRef) (owner : IUser)
    (net : Network (number := number)) (cred : AiSelfHostedCredentials)
    (req : Request) :
  settled (run net (generateAiCreditsCredentials c owner)) = inr cred ->
  In req (requests (run net (chat c payload user)) ++
          requests (run net (askAi c ask user)))%list ->
  url req = cred_url cred ++ "/chat/completions" /\
  method req = "POST" /\
  header "Content-Type" (headers req) = Some "application/json" /\
  header "Authorization" (headers req) = Some ("Bearer " ++ cred_apiKey cred).
Proof.
  intros Hcred Hreq.
  rewrite chat_sends, askAi_sends in Hreq.
  destruct c as [c | c]; injection Hcred as <-;
    destruct Hreq as [<- | [<- | []]]; repeat split; reflexivity.
Qed.

(** On either client, [chat] asks for a streamed completion of the
    messages [convertPayloadToMessages] gives, and [askAi] for a
    non-streamed completion of exactly two messages: the system message and
    a user message whose content is the prompt. *)
Theorem chat_streams_and_askAi_does_not
    (c : SelfHosted) (payload : AiChatRequestDto number)
    (ask : AiAskRequestDto number) (user : UserRef)
    (net : Network (number := number)) :
  (exists req,
     requests (run net (chat c payload user)) = [req] /\
     body req
       = JSON_stringify
           (VObj [ ("model", VStr (model_id c));
                   ("messages",
                    VArr (map message_value (chat_messages c payload)));
                   ("stream", VBool true) ])) /\
  (exists req,
     requests (run net (askAi c ask user)) = [req] /\
     body req
       = JSON_stringify
           (VObj [ ("model", VStr (model_id c));
                   ("messages",
                    VArr [ VObj [ ("role", VStr "system");
                                  ("content", VStr system_prompt) ];
                           VObj [ ("role", VStr "user");
                                  ("content", VStr (ask_prompt c ask)) ] ]);
                   ("stream", VBool false) ])).
Proof.
  rewrite chat_sends, askAi_sends.
  split; eexists; split; reflexivity.
Qed.

End ClientCoverage.

(* ===================================================================== *)
(** ** Further properties of the provider-selection service *)
(* ===================================================================== *)

Section ServiceCoverage.
Context {number : Type} `{JsNumber number} `{External number}.

(** The object an operation leaves is the object its guard leaves. *)
Lemma operation_state
    (self : AiService.t)
    (pc : AiChatRequestDto number) (pa : AiApplySuggestionRequestDto)
    (pq : AiAskRequestDto number) (user : IUser) :
  fst (AiService.chat self pc user) = fst (AiService.ensure_init self) /\
  fst (AiService.applySuggestion self pa user)
    = fst (AiService.ensure_init self) /\
  fst (AiService.askAi self pq user) = fst (AiService.ensure_init self) /\
  fst (AiService.createFreeAiCredits self user)
    = fst (AiService.ensure_init self).
Proof.
  unfold AiService.chat, AiService.applySuggestion, AiService.askAi,
    AiService.createFreeAiCredits.
  destruct (AiService.ensure_init self) as [self' [e | []]];
    repeat split; reflexivity.
Qed.

(** With a client held, the guard of the operations does nothing. *)
Lemma ensure_init_with_client (self : AiService.t) :
  AiService.client self <> None \/ AiService.selfHostedClient self <> None ->
  AiService.ensure_init self = (self, inr tt).
Proof.
  intros Hheld. unfold AiService.ensure_init.
  destruct (AiService.client self), (AiService.selfHostedClient self);
    try reflexivity.
  destruct Hheld; congruence.
Qed.

Lemma init_keeps_designated (self : AiService.t) :
  designated_client_present self ->
  designated_client_present (fst (AiService.init self)).
Proof.
  intros [Hlicensed Hself]. unfold AiService.init.
  destruct (isAiAssistantEnabled (AiService.licenseService self)).
  - destruct (loadCertStr (AiService.licenseService self)) as [e | cert];
      [now split |].
    split; simpl; intros; discriminate.
  - destruct (selfHostedEnabled
                (aiAssistant (AiService.globalConfig self))); cbn [andb];
      [| now split].
    destruct (nonempty (openRouterApiKey
                          (aiAssistant (AiService.globalConfig self))));
      cbn [orb].
    + split; simpl; intros; discriminate.
    + destruct (nonempty (openAiApiKey
                            (aiAssistant (AiService.globalConfig self))));
        [| now split].
      split; simpl; intros; discriminate.
Qed.

Lemma ensure_init_keeps_designated (self : AiService.t) :
  designated_client_present self ->
  designated_client_present (fst (AiService.ensure_init self)).
Proof.
  intros Hself. unfold AiService.ensure_init.
  destruct (negb (is_some (AiService.client self)) &&
            negb (is_some (AiService.selfHostedClient self)));
    [now apply init_keeps_designated | exact Hself].
Qed.

(** The invariant of the service, by induction on its life. *)
Lemma reachable_designated (self : AiService.t) :
  reachable self -> designated_client_present self.
Proof.
  induction 1 as [lic cfg | self _ IH | self pc user _ IH
                  | self pa user _ IH | self pq user _ IH | self user _ IH
                  | self lic cfg _ IH].
  - split; simpl; [discriminate | congruence].
  - now apply init_keeps_designated.
  - rewrite (proj1 (operation_state self pc
                      {| apply_sessionId := EmptyString;
                         apply_suggestionId := EmptyString |}
                      {| question := EmptyString; context := None;
                         forNode := EmptyString |} user)).
    now apply ensure_init_keeps_designated.
  - rewrite (proj1 (proj2 (operation_state self
                      {| chat_payload := None; chat_sessionId := None |}
                      pa
                      {| question := EmptyString; context := None;
                         forNode := EmptyString |} user))).
    now apply ensure_init_keeps_designated.
  - rewrite (proj1 (proj2 (proj2 (operation_state self
                      {| chat_payload := None; chat_sessionId := None |}
                      {| apply_sessionId := EmptyString;
                         apply_suggestionId := EmptyString |}
                      pq user)))).
    now apply ensure_init_keeps_designated.
  - rewrite (proj2 (proj2 (proj2 (operation_state self
                      {| chat_payload := None; chat_sessionId := None |}
                      {| apply_sessionId := EmptyString;
                         apply_suggestionId := EmptyString |}
                      {| question := EmptyString; context := None;
                         forNode := EmptyString |} user)))).
    now apply ensure_init_keeps_designated.
  - exact IH.
Qed.

(** X15: throughout the life of a service (construction, [init] and the
    operations in any order, license and configuration changing in
    between), the flag never designates an absent licensed client, and as
    soon as the service holds any client every operation is forwarded to
    the one the flag designates: the assertions of the operations fail
    only when no client is held at all. *)
Theorem operations_forward_whenever_a_client_is_held
    (self : AiService.t)
    (pc : AiChatRequestDto number) (pa : AiApplySuggestionRequestDto)
    (pq : AiAskRequestDto number) (user : IUser) :
  reachable self ->
  (AiService.isUsingLicensedClient self = true ->
     exists c, AiService.client self = Some c) /\
  (AiService.client self <> None \/ AiService.selfHostedClient self <> None ->
     (exists c, AiService.isUsingLicensedClient self = true /\
                AiService.client self = Some c /\
                forwards_to_licensed self c pc pa pq user) \/
     (exists c, AiService.isUsingLicensedClient self = false /\
                AiService.selfHostedClient self = Some c /\
                forwards_to_self_hosted self c pc pa pq user)).
Proof.
  intros Hreach.
  destruct (reachable_designated self Hreach) as [Hlicensed Hself].
  split.
  - intros Hflag. specialize (Hlicensed Hflag).
    destruct (AiService.client self) as [c |]; [now exists c | congruence].
  - intros Hheld.
    pose proof (ensure_init_with_client self Hheld) as Hguard.
    destruct (AiService.isUsingLicensedClient self) eqn:Hflag.
    + left. specialize (Hlicensed eq_refl).
      destruct (AiService.client self) as [c |] eqn:Hclient; [| congruence].
      exists c. repeat split.
      all: unfold AiService.chat, AiService.applySuggestion, AiService.askAi,
             AiService.createFreeAiCredits.
      all: rewrite Hguard; cbn [snd]; rewrite Hflag, Hclient; reflexivity.
    + right.
      assert (Hsh : AiService.selfHostedClient self <> None).
      { destruct Hheld as [Hc | Hs]; [now apply Hself | exact Hs]. }
      destruct (AiService.selfHostedClient self) as [c |] eqn:Hclient;
        [| congruence].
      exists c. repeat split.
      all: unfold AiService.chat, AiService.applySuggestion, AiService.askAi,
             AiService.createFreeAiCredits.
      all: rewrite Hguard; cbn [snd]; rewrite Hflag, Hclient; reflexivity.
Qed.

(** X16: [init] is idempotent, from any state: running it again with the
    same license and configuration ends in the same object and settles the
    same way. *)
Theorem init_is_idempotent (self : AiService.t) :
  AiService.init (fst (AiService.init self)) = AiService.init self.
Proof.
  destruct self as [client selfHosted flag lic cfg].
  unfold AiService.init; cbn [AiService.licenseService AiService.globalConfig].
  destruct (isAiAssistantEnabled lic) eqn:Hlic.
  - destruct (loadCertStr lic) as [e | cert] eqn:Hcert; cbn.
    + now rewrite Hlic, Hcert.
    + now rewrite Hlic, Hcert.
  - destruct (selfHostedEnabled (aiAssistant cfg)) eqn:Hself; cbn [andb].
    + destruct (nonempty (openRouterApiKey (aiAssistant cfg))) eqn:Hor;
        cbn [orb].
      * cbn. now rewrite Hlic, Hself, Hor.
      * destruct (nonempty (openAiApiKey (aiAssistant cfg))) eqn:Hoa; cbn.
        -- now rewrite Hlic, Hself, Hor, Hoa.
        -- now rewrite Hlic, Hself, Hor, Hoa.
    + cbn. now rewrite Hlic, Hself.
Qed.

(** X17: [init] never discards a client.  Run on a service that already
    holds a self-hosted client, with the license now enabled, it keeps that
    client, adds the licensed one and turns the flag to it: the service
    then holds two clients.  Run with the license disabled and nothing
    usable configured, it leaves the object as it is, a licensed client and
    its flag included. *)
Theorem init_adds_and_never_discards (self : AiService.t) :
  (forall cert,
     isAiAssistantEnabled (AiService.licenseService self) = true ->
     loadCertStr (AiService.licenseService self) = inr cert ->
     let self' := fst (AiService.init self) in
     AiService.client self'
       = Some (licensed_client (AiService.licenseService self)
                               (AiService.globalConfig self) cert) /\
     AiService.selfHostedClient self' = AiService.selfHostedClient self /\
     AiService.isUsingLicensedClient self' = true) /\
  (isAiAssistantEnabled (AiService.licenseService self) = false ->
   selfHostedEnabled (aiAssistant (AiService.globalConfig self)) = false \/
   openRouterApiKey (aiAssistant (AiService.globalConfig self)) = EmptyString /\
   openAiApiKey (aiAssistant (AiService.globalConfig self)) = EmptyString ->
     AiService.init self = (self, inr tt)) /\
  (AiService.client self <> None ->
     AiService.client (fst (AiService.init self)) <> None) /\
  (AiService.selfHostedClient self <> None ->
     AiService.selfHostedClient (fst (AiService.init self)) <> None).
Proof.
  split; [| split; [| split]].
  - intros cert Hlic Hcert self'. subst self'.
    unfold AiService.init. rewrite Hlic, Hcert. repeat split; reflexivity.
  - intros Hlic Hnone. unfold AiService.init. rewrite Hlic.
    destruct Hnone as [-> | [-> ->]]; [reflexivity |].
    now destruct (selfHostedEnabled (aiAssistant (AiService.globalConfig self))).
  - intros Hclient. unfold AiService.init.
    destruct (isAiAssistantEnabled (AiService.licenseService self)).
    + destruct (loadCertStr (AiService.licenseService self));
        [exact Hclient | discriminate].
    + destruct (selfHostedEnabled (aiAssistant (AiService.globalConfig self))),
        (nonempty (openRouterApiKey
                     (aiAssistant (AiService.globalConfig self)))),
        (nonempty (openAiApiKey (aiAssistant (AiService.globalConfig self))));
        exact Hclient.
  - intros Hclient. unfold AiService.init.
    destruct (isAiAssistantEnabled (AiService.licenseService self)).
    + destruct (loadCertStr (AiService.licenseService self)); exact Hclient.
    + destruct (selfHostedEnabled (aiAssistant (AiService.globalConfig self))),
        (nonempty (openRouterApiKey
                     (aiAssistant (AiService.globalConfig self)))),
        (nonempty (openAiApiKey (aiAssistant (AiService.globalConfig self))));
        try exact Hclient; discriminate.
Qed.

(** X18: when the license reports the assistant enabled but its
    certificate cannot be loaded, [init] rejects with the reason of the
    load and assigns nothing, and on a fresh service each of the four
    operations rejects with that reason and leaves the service fresh.
    There is no fall-back to a configured self-hosted client. *)
Theorem failed_certificate_load_blocks_every_operation
    (lic : License) (cfg : GlobalConfig) (e : exn)
    (pc : AiChatRequestDto number) (pa : AiApplySuggestionRequestDto)
    (pq : AiAskRequestDto number) (user : IUser) :
  isAiAssistantEnabled lic = true ->
  loadCertStr lic = inl e ->
  let fresh := AiService.constructor lic cfg in
  AiService.init fresh = (fresh, inl e) /\
  AiService.chat fresh pc user = (fresh, Throw e) /\
  AiService.applySuggestion fresh pa user = (fresh, Throw e) /\
  AiService.askAi fresh pq user = (fresh, Throw e) /\
  AiService.createFreeAiCredits fresh user = (fresh, Throw e).
Proof.
  intros Hlic Hcert fresh.
  assert (Hinit : AiService.init fresh = (fresh, inl e)).
  { unfold AiService.init, fresh.
    cbn [AiService.constructor AiService.licenseService].
    now rewrite Hlic, Hcert. }
  split; [exact Hinit |].
  unfold AiService.chat, AiService.applySuggestion, AiService.askAi,
    AiService.createFreeAiCredits.
  unfold fresh in *. rewrite ensure_init_fresh, Hinit.
  repeat split; reflexivity.
Qed.

(** What [init] leaves on a fresh service without a license, in
    self-hosted mode, by key. *)
Lemma init_selects_openrouter (lic : License) (cfg : GlobalConfig) :
  isAiAssistantEnabled lic = false ->
  selfHostedEnabled (aiAssistant cfg) = true ->
  openRouterApiKey (aiAssistant cfg) <> EmptyString ->
  AiService.init (AiService.constructor lic cfg)
    = ({| AiService.client := None;
          AiService.selfHostedClient :=
            Some (OpenRouter
                    {| OpenRouterClient.apiKey :=
                         openRouterApiKey (aiAssistant cfg);
                       OpenRouterClient.model :=
                         openRouterModel (aiAssistant cfg) |});
          AiService.isUsingLicensedClient := false;
          AiService.licenseService := lic;
          AiService.globalConfig := cfg |}, inr tt).
Proof.
  intros Hlic Hself Hor. apply nonempty_true_iff in Hor.
  unfold AiService.init.
  cbn [AiService.constructor AiService.licenseService AiService.globalConfig].
  now rewrite Hlic, Hself, Hor.
Qed.

Lemma init_selects_openai (lic : License) (cfg : GlobalConfig) :
  isAiAssistantEnabled lic = false ->
  selfHostedEnabled (aiAssistant cfg) = true ->
  openRouterApiKey (aiAssistant cfg) = EmptyString ->
  openAiApiKey (aiAssistant cfg) <> EmptyString ->
  AiService.init (AiService.constructor lic cfg)
    = ({| AiService.client := None;
          AiService.selfHostedClient :=
            Some (OpenAI
                    {| OpenAIClient.apiKey := openAiApiKey (aiAssistant cfg);
                       OpenAIClient.model := openAiModel (aiAssistant cfg) |});
          AiService.isUsingLicensedClient := false;
          AiService.licenseService := lic;
          AiService.globalConfig := cfg |}, inr tt).
Proof.
  intros Hlic Hself Hor Hoa.
  apply nonempty_false_iff in Hor. apply nonempty_true_iff in Hoa.
  unfold AiService.init.
  cbn [AiService.constructor AiService.licenseService AiService.globalConfig].
  now rewrite Hlic, Hself, Hor, Hoa.
Qed.

(** What the caller observes of the four operations once the guard has
    left a self-hosted client designated. *)
Lemma service_runs_self_hosted
    (self self' : AiService.t) (c : SelfHosted)
    (pc : AiChatRequestDto number) (pa : AiApplySuggestionRequestDto)
    (pq : AiAskRequestDto number) (user : IUser)
    (net : Network (number := number)) :
  AiService.ensure_init self = (self', inr tt) ->
  AiService.isUsingLicensedClient self' = false ->
  AiService.selfHostedClient self' = Some c ->
  requests (run net (snd (AiService.chat self pc user)))
    = requests (run net (chat c pc {| ref_id := id user |})) /\
  requests (run net (snd (AiService.askAi self pq user)))
    = requests (run net (askAi c pq {| ref_id := id user |})) /\
  run net (snd (AiService.applySuggestion self pa user))
    = ([], inr (inr {| sessionId := apply_sessionId pa;
                       suggestionId := apply_suggestionId pa;
                       applied := true |})) /\
  run net (snd (AiService.createFreeAiCredits self user))
    = ([], inr (inr {| cred_apiKey := api_key c; cred_url := base_url c |})).
Proof.
  intros Hguard Hflag Hclient.
  unfold AiService.chat, AiService.askAi, AiService.applySuggestion,
    AiService.createFreeAiCredits.
  rewrite Hguard. cbn [snd]. rewrite Hflag, Hclient. cbn [assert bind].
  unfold run. rewrite !run_from_fmap. cbn [requests fst].
  repeat split; destruct c; reflexivity.
Qed.

(** X19: end to end, on a fresh service without a license and in
    self-hosted mode, [chat] and [askAi] each send exactly one request: to
    OpenRouter with the OpenRouter key and model when that key is set
    (whatever the OpenAI key is, it is not sent), and to OpenAI with the
    OpenAI key and model when only that key is set. *)
Theorem fresh_service_calls_the_configured_provider
    (lic : License) (cfg : GlobalConfig)
    (pc : AiChatRequestDto number) (pq : AiAskRequestDto number)
    (user : IUser) (net : Network (number := number)) :
  isAiAssistantEnabled lic = false ->
  selfHostedEnabled (aiAssistant cfg) = true ->
  let fresh := AiService.constructor lic cfg in
  (openRouterApiKey (aiAssistant cfg) <> EmptyString ->
   exists a b,
     requests (run net (snd (AiService.chat fresh pc user))) = [a] /\
     requests (run net (snd (AiService.askAi fresh pq user))) = [b] /\
     completion_request_to "https://openrouter.ai/api/v1"
       (openRouterApiKey (aiAssistant cfg))
       (openRouterModel (aiAssistant cfg)) a /\
     completion_request_to "https://openrouter.ai/api/v1"
       (openRouterApiKey (aiAssistant cfg))
       (openRouterModel (aiAssistant cfg)) b) /\
  (openRouterApiKey (aiAssistant cfg) = EmptyString ->
   openAiApiKey (aiAssistant cfg) <> EmptyString ->
   exists a b,
     requests (run net (snd (AiService.chat fresh pc user))) = [a] /\
     requests (run net (snd (AiService.askAi fresh pq user))) = [b] /\
     completion_request_to "https://api.openai.com/v1"
       (openAiApiKey (aiAssistant cfg)) (openAiModel (aiAssistant cfg)) a /\
     completion_request_to "https://api.openai.com/v1"
       (openAiApiKey (aiAssistant cfg)) (openAiModel (aiAssistant cfg)) b).
Proof.
  intros Hlic Hself fresh. subst fresh.
  pose (apply_nothing := {| apply_sessionId := EmptyString;
                            apply_suggestionId := EmptyString |}).
  split.
  - intros Hor.
    destruct (service_runs_self_hosted _ _ _ pc apply_nothing pq user net
                (eq_trans (ensure_init_fresh lic cfg)
                          (init_selects_openrouter lic cfg Hlic Hself Hor))
                eq_refl eq_refl) as (-> & -> & _).
    rewrite chat_sends, askAi_sends.
    eexists; eexists. split; [reflexivity |]. split; [reflexivity |].
    split; (split; [reflexivity |]); (split; [reflexivity |]);
      cbn [body]; eexists; split; reflexivity.
  - intros Hor Hoa.
    destruct (service_runs_self_hosted _ _ _ pc apply_nothing pq user net
                (eq_trans (ensure_init_fresh lic cfg)
                          (init_selects_openai lic cfg Hlic Hself Hor Hoa))
                eq_refl eq_refl) as (-> & -> & _).
    rewrite chat_sends, askAi_sends.
    eexists; eexists. split; [reflexivity |]. split; [reflexivity |].
    split; (split; [reflexivity |]); (split; [reflexivity |]);
      cbn [body]; eexists; split; reflexivity.
Qed.

(** X20: end to end, on a fresh service without a license and in
    self-hosted mode, [createFreeAiCredits] sends nothing and returns to
    its caller the key the operator configured, as it is, with the base URL
    of the provider: the OpenRouter key when it is set, the OpenAI key when
    only that one is. *)
Theorem fresh_service_returns_the_configured_key
    (lic : License) (cfg : GlobalConfig) (user : IUser)
    (net : Network (number := number)) :
  isAiAssistantEnabled lic = false ->
  selfHostedEnabled (aiAssistant cfg) = true ->
  let fresh := AiService.constructor lic cfg in
  (openRouterApiKey (aiAssistant cfg) <> EmptyString ->
     run net (snd (AiService.createFreeAiCredits fresh user))
       = ([], inr (inr {| cred_apiKey := openRouterApiKey (aiAssistant cfg);
                          cred_url := "https://openrouter.ai/api/v1" |}))) /\
  (openRouterApiKey (aiAssistant cfg) = EmptyString ->
   openAiApiKey (aiAssistant cfg) <> EmptyString ->
     run net (snd (AiService.createFreeAiCredits fresh user))
       = ([], inr (inr {| cred_apiKey := openAiApiKey (aiAssistant cfg);
                          cred_url := "https://api.openai.com/v1" |}))).
Proof.
  intros Hlic Hself fresh. subst fresh.
  pose (apply_nothing := {| apply_sessionId := EmptyString;
                            apply_suggestionId := EmptyString |}).
  pose (chat_nothing := {| chat_payload := @None (value number);
                           chat_sessionId := None |}).
  pose (ask_nothing := {| question := EmptyString;
                          context := @None (AskContext number);
                          forNode := EmptyString |}).
  split.
  - intros Hor.
    exact (proj2 (proj2 (proj2
             (service_runs_self_hosted _ _ _ chat_nothing apply_nothing
                ask_nothing user net
                (eq_trans (ensure_init_fresh lic cfg)
                          (init_selects_openrouter lic cfg Hlic Hself Hor))
                eq_refl eq_refl)))).
  - intros Hor Hoa.
    exact (proj2 (proj2 (proj2
             (service_runs_self_hosted _ _ _ chat_nothing apply_nothing
                ask_nothing user net
                (eq_trans (ensure_init_fresh lic cfg)
                          (init_selects_openai lic cfg Hlic Hself Hor Hoa))
                eq_refl eq_refl)))).
Qed.

(** X21: the license has priority.  On a fresh service whose license
    reports the assistant enabled and whose certificate loads, every
    operation is forwarded to a licensed client built from the
    certificate, the consumer id, the n8n version, the configured base URL
    and the log level; the self-hosted switch, keys and models play no
    part. *)
Theorem license_has_priority_over_self_hosted
    (lic : License) (cfg : GlobalConfig) (cert : string)
    (pc : AiChatRequestDto number) (pa : AiApplySuggestionRequestDto)
    (pq : AiAskRequestDto number) (user : IUser) :
  isAiAssistantEnabled lic = true ->
  loadCertStr lic = inr cert ->
  forwards_to_licensed (AiService.constructor lic cfg)
    (licensed_client lic cfg cert) pc pa pq user /\
  AiService.selfHostedClient
    (fst (AiService.chat (AiService.constructor lic cfg) pc user)) = None.
Proof.
  intros Hlic Hcert.
  assert (Hinit : AiService.ensure_init (AiService.constructor lic cfg)
            = ({| AiService.client := Some (licensed_client lic cfg cert);
                  AiService.selfHostedClient := None;
                  AiService.isUsingLicensedClient := true;
                  AiService.licenseService := lic;
                  AiService.globalConfig := cfg |}, inr tt)).
  { rewrite ensure_init_fresh. unfold AiService.init.
    cbn [AiService.constructor AiService.licenseService AiService.globalConfig].
    now rewrite Hlic, Hcert. }
  unfold forwards_to_licensed, AiService.chat, AiService.applySuggestion,
    AiService.askAi, AiService.createFreeAiCredits.
  rewrite Hinit. repeat split; reflexivity.
Qed.

(** X22: as long as a service holds no client, every operation consults
    the license and the configuration anew: whatever the service has been
    through, an operation on it does what it would do on a service just
    constructed with the license and configuration of the moment. *)
Theorem service_without_client_reads_configuration_on_every_call
    (self : AiService.t) (lic : License) (cfg : GlobalConfig)
    (pc : AiChatRequestDto number) (pa : AiApplySuggestionRequestDto)
    (pq : AiAskRequestDto number) (user : IUser) :
  reachable self ->
  AiService.client self = None ->
  AiService.selfHostedClient self = None ->
  same_calls (with_services self lic cfg) (AiService.constructor lic cfg)
             pc pa pq user.
Proof.
  intros Hreach Hclient Hself.
  destruct (reachable_designated self Hreach) as [Hlicensed _].
  assert (Hfresh : with_services self lic cfg = AiService.constructor lic cfg).
  { unfold with_services, AiService.constructor. rewrite Hclient, Hself.
    destruct (AiService.isUsingLicensedClient self); [| reflexivity].
    now specialize (Hlicensed eq_refl). }
  rewrite Hfresh. repeat split; reflexivity.
Qed.


End ServiceCoverage.

(* ===================================================================== *)
(** ** The further properties at concrete inputs *)
(* ===================================================================== *)

Lemma chat_success_on_stream :
  settled (run (always streaming)
               (chat openai_test_client hello_payload {| ref_id := "user123" |}))
    = inr {| response_body := Some "data: [DONE]" |}.
Proof.
  refine (proj1 (chat_success_hands_over_stream
                   openai_test_client hello_payload {| ref_id := "user123" |}
                   (always streaming) streaming (fun _ => eq_refl) _)).
  split; discriminate.
Defined.

Lemma chat_offline_rejects :
  settled (run offline
               (chat openrouter_test_client hello_payload
                     {| ref_id := "user123" |}))
    = inl (Rejection "fetch failed").
Proof.
  exact (proj1 (fetch_rejection_propagates
                  openrouter_test_client hello_payload test_question
                  {| ref_id := "user123" |} offline (Rejection "fetch failed")
                  (fun _ => eq_refl))).
Defined.

Lemma askAi_on_stream_rejects :
  settled (run (always streaming)
               (askAi openai_test_client test_question
                      {| ref_id := "user123" |}))
    = inl (Rejection "Unexpected token 'd'").
Proof.
  refine (askAi_unparsable_body_rejects
            openai_test_client test_question {| ref_id := "user123" |}
            (always streaming) streaming (Rejection "Unexpected token 'd'")
            (fun _ => eq_refl) _ eq_refl).
  split; discriminate.
Defined.

Lemma askAi_on_error_object_throws :
  exists message,
    settled (run (always (success (VObj [("error", VStr "overloaded")])))
                 (askAi openai_test_client test_question
                        {| ref_id := "user123" |}))
      = inl (TypeError message).
Proof.
  refine (proj2 (askAi_throws_TypeError_iff_no_choices
                   openai_test_client test_question {| ref_id := "user123" |}
                   (always (success (VObj [("error", VStr "overloaded")])))
                   (success (VObj [("error", VStr "overloaded")]))
                   (VObj [("error", VStr "overloaded")])
                   (fun _ => eq_refl) _ eq_refl)
                (or_introl eq_refl)).
  split; discriminate.
Defined.

Lemma askAi_test_answer_not_empty :
  truthy (VStr "This is a test response" : value Z) = true /\
  VStr "This is a test response" <> (VStr EmptyString : value Z) /\
  VStr "This is a test response" <> (VNull : value Z).
Proof.
  exact (askAi_answer_is_never_empty
           openrouter_test_client test_question {| ref_id := "user123" |}
           (always (success (completion (VStr "This is a test response"))))
           (VStr "This is a test response") eq_refl).
Defined.

Lemma chat_same_request_across_sessions :
  requests (run (always streaming)
                (chat openrouter_test_client hello_payload
                      {| ref_id := "user123" |}))
    = requests (run offline
                    (chat openrouter_test_client hello_payload_again
                          {| ref_id := "user456" |})).
Proof.
  exact (chat_request_ignores_session_and_user
           openrouter_test_client hello_payload hello_payload_again
           {| ref_id := "user123" |} {| ref_id := "user456" |}
           (always streaming) offline eq_refl).
Defined.

Lemma hello_messages :
  exists content : value Z,
    chat_messages openai_test_client hello_payload
      = [system_message; user_message content] /\
    truthy content = true.
Proof.
  exact (proj2 (proj2 (messages_are_system_then_at_most_one_user
                         openai_test_client hello_payload))
               (VObj [("message", VStr "Hello")]) eq_refl eq_refl).
Defined.

Lemma empty_message_falls_back_to_question :
  chat_messages openrouter_test_client question_payload
    = [system_message; user_message (VStr "Why?")].
Proof.
  exact (proj1 (proj2 (user_message_prefers_message_then_question
                         openrouter_test_client question_payload
                         (VObj [("message", VStr EmptyString);
                                ("question", VStr "Why?")])
                         eq_refl eq_refl))
               (VStr "Why?") eq_refl eq_refl eq_refl).
Defined.


Lemma test_question_prompt_has_header_only :
  ask_prompt openai_test_client
             {| question := "Test question";
                context := Some {| ctx_schema := Some [];
                                   ctx_inputSchema := @None (NodeSchema Z);
                                   pushRef := "push123";
                                   ndvPushRef := "ndv123" |};
                forNode := "Test Node" |}
    = "Question: Test question" ++ nl ++ nl
        ++ "Context:" ++ nl ++ "Available nodes and their schemas:" ++ nl
        ++ nl ++ "For node: Test Node" ++ nl ++ nl ++ prompt_trailer.
Proof.
  exact (proj2 (prompt_without_context_or_nodes openai_test_client
                  {| question := "Test question";
                     context := Some {| ctx_schema := Some [];
                                        ctx_inputSchema := @None (NodeSchema Z);
                                        pushRef := "push123";
                                        ndvPushRef := "ndv123" |};
                     forNode := "Test Node" |})
               _ eq_refl eq_refl eq_refl).
Defined.

Lemma askAi_same_request_from_elsewhere :
  requests (run (always streaming)
                (askAi openai_test_client test_question
                       {| ref_id := "user123" |}))
    = requests (run offline
                    (askAi openai_test_client test_question_elsewhere
                           {| ref_id := "user456" |})).
Proof.
  exact (askAi_request_ignores_push_refs_and_user
           openai_test_client test_question test_question_elsewhere
           {| ref_id := "user123" |} {| ref_id := "user456" |}
           (always streaming) offline eq_refl eq_refl (conj eq_refl eq_refl)).
Defined.

Lemma openai_requests_use_returned_credentials :
  let req :=
    {| url := "https://api.openai.com/v1/chat/completions";
       method := "POST";
       headers := [ ("Content-Type", "application/json");
                    ("Authorization", "Bearer test-openai-key") ];
       body := JSON_stringify
                 (body_object "gpt-4"
                    (chat_messages openai_test_client hello_payload) true) |} in
  url req = "https://api.openai.com/v1" ++ "/chat/completions" /\
  method req = "POST" /\
  header "Content-Type" (headers req) = Some "application/json" /\
  header "Authorization" (headers req)
    = Some ("Bearer " ++ "test-openai-key").
Proof.
  exact (credentials_are_those_of_the_requests
           openai_test_client hello_payload test_question
           {| ref_id := "user123" |} mockUser offline
           {| cred_apiKey := "test-openai-key";
              cred_url := "https://api.openai.com/v1" |}
           _ eq_refl (or_introl eq_refl)).
Defined.

Lemma licensed_service_holds_its_client :
  exists c,
    AiService.client
      (fst (AiService.init
              (AiService.constructor enterprise_license openrouter_config)))
      = Some c.
Proof.
  exact (proj1 (operations_forward_whenever_a_client_is_held
                  (fst (AiService.init
                          (AiService.constructor enterprise_license
                                                 openrouter_config)))
                  hello_payload apply_payload test_question mockUser
                  (reach_init _ (reach_constructor _ _)))
               eq_refl).
Defined.

Lemma reinit_after_license_grant_holds_two_clients :
  selected
    (fst (AiService.init
            (with_services
               (fst (AiService.init
                       (AiService.constructor no_license openrouter_config)))
               enterprise_license openrouter_config))) = 2.
Proof.
  destruct (proj1 (init_adds_and_never_discards
                     (with_services
                        (fst (AiService.init
                                (AiService.constructor no_license
                                                       openrouter_config)))
                        enterprise_license openrouter_config))
                  "cert" eq_refl eq_refl) as (Hclient & Hself & _).
  unfold selected. rewrite Hclient, Hself. reflexivity.
Defined.

Lemma unloadable_license_blocks_chat :
  AiService.chat (AiService.constructor unloadable_license openrouter_config)
                 hello_payload mockUser
    = (AiService.constructor unloadable_license openrouter_config,
       Throw (Rejection "database unavailable")).
Proof.
  exact (proj1 (proj2 (failed_certificate_load_blocks_every_operation
                         unloadable_license openrouter_config
                         (Rejection "database unavailable")
                         hello_payload apply_payload test_question mockUser
                         eq_refl eq_refl))).
Defined.

Lemma openrouter_wins_over_openai :
  exists a b,
    requests (run offline
                (snd (AiService.chat
                        (AiService.constructor no_license openrouter_config)
                        hello_payload mockUser))) = [a] /\
    requests (run offline
                (snd (AiService.askAi
                        (AiService.constructor no_license openrouter_config)
                        test_question mockUser))) = [b] /\
    completion_request_to "https://openrouter.ai/api/v1" "sk-or-1"
      "meta-llama/llama-3.1-8b-instruct:free" a /\
    completion_request_to "https://openrouter.ai/api/v1" "sk-or-1"
      "meta-llama/llama-3.1-8b-instruct:free" b.
Proof.
  refine (proj1 (fresh_service_calls_the_configured_provider
                   no_license openrouter_config hello_payload test_question
                   mockUser offline eq_refl eq_refl) _).
  discriminate.
Defined.

Lemma openai_key_is_handed_back :
  run offline
      (snd (AiService.createFreeAiCredits
              (AiService.constructor no_license openai_config) mockUser))
    = ([], inr (inr {| cred_apiKey := "sk-oa-1";
                       cred_url := "https://api.openai.com/v1" |})).
Proof.
  refine (proj2 (fresh_service_returns_the_configured_key
                   no_license openai_config mockUser offline eq_refl eq_refl)
                eq_refl _).
  discriminate.
Defined.

Lemma enterprise_license_ignores_keys :
  AiService.selfHostedClient
    (fst (AiService.chat
            (AiService.constructor enterprise_license openrouter_config)
            hello_payload mockUser)) = None.
Proof.
  exact (proj2 (license_has_priority_over_self_hosted
                  enterprise_license openrouter_config "cert"
                  hello_payload apply_payload test_question mockUser
                  eq_refl eq_refl)).
Defined.

Lemma unconfigured_service_picks_up_new_configuration :
  same_calls
    (with_services
       (fst (AiService.chat (AiService.constructor no_license default_config)
                            hello_payload mockUser))
       no_license openrouter_config)
    (AiService.constructor no_license openrouter_config)
    hello_payload apply_payload test_question mockUser.
Proof.
  exact (service_without_client_reads_configuration_on_every_call
           (fst (AiService.chat (AiService.constructor no_license default_config)
                                hello_payload mockUser))
           no_license openrouter_config
           hello_payload apply_payload test_question mockUser
           (reach_chat _ _ _ (reach_constructor _ _)) eq_refl eq_refl).
Defined.
